(** * A shallow embedding of the chat router of [app.py]

    The development follows the source file top to bottom: the static
    provider table [API_CONFIG], the process-wide session map
    [chat_sessions], the provider dispatch [call_ai_api], the request
    handler [chat] and its three flow handlers.

    Python text is modelled by [string]: a character stands for the Unicode
    code point of its number, which covers the code points below 256 (text
    with a higher code point is outside the model); [str.strip] and
    [str.lower] are written out for that range. Python dictionaries used as
    maps are [gmap]s; mutation of the session map and the
    outbound HTTP calls are threaded through a small state-and-exception
    monad. *)

From Stdlib Require Import String Ascii List ZArith Bool Lia.
From stdpp Require Import base option gmap strings list fin_maps.

Import ListNotations.
Local Open Scope string_scope.
Local Open Scope list_scope.
Local Set Warnings "-register-all".

(** ** Text primitives *)

Module Text.

(** The line feed and the double quote, which the literals of the source
    contain. *)
Definition nl : string := String "010"%char EmptyString.
Definition dq : string := String "034"%char EmptyString.

(** [str.isspace] on one code point below 256: TAB, LF, VT, FF, CR, the
    four separators FS GS RS US, the space, the next-line control U+0085 and
    the no-break space U+00A0. *)
Definition isspace (c : ascii) : bool :=
  let n := nat_of_ascii c in
  (((9 <=? n) && (n <=? 13)) || ((28 <=? n) && (n <=? 32))
   || (n =? 133) || (n =? 160))%nat.

Fixpoint lstrip (s : string) : string :=
  match s with
  | EmptyString => EmptyString
  | String c s' => if isspace c then lstrip s' else s
  end.

(** [rstrip] keeps a character when it is not white space or when something
    that is kept follows it. *)
Fixpoint rstrip (s : string) : string :=
  match s with
  | EmptyString => EmptyString
  | String c s' =>
      match rstrip s' with
      | EmptyString => if isspace c then EmptyString else String c EmptyString
      | r => String c r
      end
  end.

(** [str.strip()] without argument. *)
Definition strip (s : string) : string := rstrip (lstrip s).

(** [str.lower()] on one code point below 256: the letters A to Z, and the
    letters U+00C0 to U+00DE but for the multiplication sign U+00D7, move up
    by 32; all others stay. *)
Definition lower_char (c : ascii) : ascii :=
  let n := nat_of_ascii c in
  if (((65 <=? n) && (n <=? 90))
      || ((192 <=? n) && (n <=? 222) && negb (n =? 215)))%nat
  then ascii_of_nat (n + 32) else c.

(** [str.lower()]. *)
Fixpoint lower (s : string) : string :=
  match s with
  | EmptyString => EmptyString
  | String c s' => String (lower_char c) (lower s')
  end.

(** [sep.join(l)]. *)
Fixpoint join (sep : string) (l : list string) : string :=
  match l with
  | [] => ""
  | [x] => x
  | x :: l' => x +:+ sep +:+ join sep l'
  end.

(** Truth value of a Python string: non-empty. *)
Definition truthy (s : string) : bool :=
  match s with
  | EmptyString => false
  | String _ _ => true
  end.

End Text.

Import Text.

(** ** Data model *)

(** One entry of a conversation: [{"role": ..., "content": ...}]. *)
Record Message := mkMessage { role : string; content : string }.

Definition user_message (text : string) : Message :=
  {| role := "user"; content := text |}.

Definition assistant_message (text : string) : Message :=
  {| role := "assistant"; content := text |}.

(** One value of [chat_sessions]. *)
Record Session := mkSession {
  history : list Message;
  chat_state : string;
  symptoms : list string
}.

(** One value of [API_CONFIG]; [key] is what [os.getenv] returned, [None] when
    the variable is not set. *)
Record ProviderConfig := mkProviderConfig {
  url : string;
  key : option string;
  model : string
}.

(** The JSON body and the whole of an outbound [requests.post]. *)
Record Body := mkBody {
  body_model : string;
  messages : list Message;
  max_tokens : nat
}.

Record HttpRequest := mkHttpRequest {
  post_url : string;
  headers : gmap string string;
  json_body : Body
}.

(** A decoded JSON document, as [response.json()] returns it. *)
Inductive JSON : Type :=
| JNull
| JBool (b : bool)
| JNum (z : Z)
| JStr (s : string)
| JArr (items : list JSON)
| JObj (fields : list (string * JSON)).

(** What came back from the provider: the status line and the decoded body,
    [None] when the body is not JSON. *)
Record HttpResponse := mkHttpResponse {
  status_code : nat;
  json : option JSON
}.

(** The exceptions the handler can meet; all of them derive from
    [Exception]. *)
Inductive exn : Type :=
| ValueError (msg : string)
| ConnectionError
| HTTPError (status : nat)
| JSONDecodeError
| KeyError
| IndexError
| TypeError.

(** The JSON document of a request to [/chat]; a field is [None] when the key
    is absent. *)
Record ChatRequest := mkChatRequest {
  req_user_id : option string;
  req_message : option string;
  req_chat_state : option string;
  req_symptoms : option (list string)
}.

(** The third state of the ["model_used"] key of the reply: the validation
    reply has no such key. *)
Inductive ModelUsed : Type :=
| NoKey
| Null
| Label (name : string).

(** The JSON document [chat] answers with. *)
Record Payload := mkPayload {
  response : string;
  out_chat_state : string;
  out_symptoms : list string;
  model_used : ModelUsed
}.

(** The mutable part of the process: the session map and, as a ghost trace,
    the requests handed to [requests.post] so far. *)
Record World := mkWorld {
  chat_sessions : gmap string Session;
  posted : list HttpRequest
}.

(** What the process cannot decide: the three environment variables, the
    remote end of [requests.post], which answers a request knowing the
    requests sent before it, and Python's [str()] on a decoded JSON value,
    which the f-strings of the handlers apply to the provider's reply. *)
Record Env := mkEnv {
  OPENAI_API_KEY : option string;
  ANTHROPIC_API_KEY : option string;
  GROQ_API_KEY : option string;
  requests_post : list HttpRequest -> HttpRequest -> exn + HttpResponse;
  py_str : JSON -> string
}.

(** ** State and exceptions *)

Module Eff.

Definition M (A : Type) : Type := World -> (exn + A) * World.

Definition ret {A} (a : A) : M A := fun w => (inr a, w).

Definition raise {A} (e : exn) : M A := fun w => (inl e, w).

Definition bind {A B} (m : M A) (k : A -> M B) : M B :=
  fun w =>
    match m w with
    | (inr a, w') => k a w'
    | (inl e, w') => (inl e, w')
    end.

End Eff.

Import Eff.

#[global] Instance eff_ret : MRet M := @ret.
#[global] Instance eff_bind : MBind M := fun A B k m => bind m k.

(** ** Provider dispatch *)

Section Dispatch.

Variable env : Env.

(** The table [API_CONFIG]. *)
Definition API_CONFIG : gmap string ProviderConfig :=
  <["openai" := {| url := "https://api.openai.com/v1/chat/completions";
                   key := OPENAI_API_KEY env;
                   model := "gpt-4o" |}]>
  (<["anthropic" := {| url := "https://api.anthropic.com/v1/messages";
                       key := ANTHROPIC_API_KEY env;
                       model := "claude-3-5-sonnet-20241022" |}]>
  (<["groq" := {| url := "https://api.groq.com/openai/v1/chat/completions";
                  key := GROQ_API_KEY env;
                  model := "llama3-70b-8192" |}]> ∅)).

(** The text of the [ValueError] of an unconfigured provider. *)
Definition not_configured (provider : string) : string :=
  "Provider " +:+ provider +:+ " not configured or missing API key".

(** [headers] as it stands when [requests.post] is reached: the dictionary
    literal, then for ["anthropic"] the added key and the [del]. *)
Definition build_headers (provider api_key : string) : gmap string string :=
  let headers : gmap string string :=
    <["Content-Type" := "application/json"]>
    (<["Authorization" := "Bearer " +:+ api_key]> ∅) in
  if decide (provider = "anthropic")
  then delete "Authorization" (<["x-api-key" := api_key]> headers)
  else headers.

(** [body] as it stands when [requests.post] is reached; the second
    assignment of [max_tokens] for ["anthropic"] writes the same 500. *)
Definition build_body (provider : string) (config : ProviderConfig)
    (prompt : string) (context : list Message) : Body :=
  let body := {| body_model := model config;
                 messages := context ++ [user_message prompt];
                 max_tokens := 500 |} in
  if decide (provider = "anthropic")
  then {| body_model := body_model body;
          messages := messages body;
          max_tokens := 500 |}
  else body.

Definition build_request (provider : string) (config : ProviderConfig)
    (api_key prompt : string) (context : list Message) : HttpRequest :=
  {| post_url := url config;
     headers := build_headers provider api_key;
     json_body := build_body provider config prompt context |}.

(** [requests.post]: the request leaves the process, whatever comes back. *)
Definition post (r : HttpRequest) : M HttpResponse :=
  fun w =>
    (requests_post env (posted w) r,
     {| chat_sessions := chat_sessions w; posted := posted w ++ [r] |}).

(** [response.raise_for_status()]: client and server errors raise. *)
Definition raise_for_status (r : HttpResponse) : M unit :=
  if ((400 <=? status_code r) && (status_code r <? 600))%nat
  then raise (HTTPError (status_code r))
  else ret tt.

(** [response.json()]. *)
Definition response_json (r : HttpResponse) : M JSON :=
  match json r with
  | Some j => ret j
  | None => raise JSONDecodeError
  end.

Fixpoint assoc (k : string) (fields : list (string * JSON)) : option JSON :=
  match fields with
  | [] => None
  | (k', v) :: rest => if decide (k = k') then Some v else assoc k rest
  end.

(** [j[k]] for a string [k]: only a dictionary accepts it. *)
Definition getitem_str (j : JSON) (k : string) : M JSON :=
  match j with
  | JObj fields =>
      match assoc k fields with
      | Some v => ret v
      | None => raise KeyError
      end
  | _ => raise TypeError
  end.

(** [j[0]]: the first item of a list, the first character of a string; a
    decoded dictionary has string keys only, so it has no key [0]. *)
Definition getitem_0 (j : JSON) : M JSON :=
  match j with
  | JArr (x :: _) => ret x
  | JArr [] => raise IndexError
  | JStr (String c _) => ret (JStr (String c EmptyString))
  | JStr EmptyString => raise IndexError
  | JObj _ => raise KeyError
  | _ => raise TypeError
  end.

(** What follows [requests.post]: the status check and the reply text in
    the shape of the provider. *)
Definition read_reply (provider : string) (response : HttpResponse)
    : M JSON :=
  raise_for_status response;;
  j ← response_json response;
  if decide (provider = "anthropic")
  then
    c ← getitem_str j "content";
    c0 ← getitem_0 c;
    getitem_str c0 "text"
  else
    c ← getitem_str j "choices";
    c0 ← getitem_0 c;
    m ← getitem_str c0 "message";
    getitem_str m "content".

Definition call_ai_api (provider prompt : string) (context : list Message)
    : M JSON :=
  match API_CONFIG !! provider with
  | None => raise (ValueError (not_configured provider))
  | Some config =>
      match key config with
      | None | Some EmptyString =>
          raise (ValueError (not_configured provider))
      | Some api_key =>
          response ← post (build_request provider config api_key prompt context);
          read_reply provider response
      end
  end.

End Dispatch.

(** ** The literals of the router *)

Module Literal.

(** The opening of every button: tag, handler call and style class. *)
Definition button (option label : string) : string :=
  "<button onclick=" +:+ dq +:+ "handleChatbotOption('" +:+ option +:+ "')"
  +:+ dq +:+ " class=" +:+ dq
  +:+ "bg-blue-500 text-white px-4 py-2 rounded hover:bg-blue-600" +:+ dq
  +:+ ">" +:+ label +:+ "</button>".

Definition menu : string :=
  nl +:+ "                Please select an option:<br>" +:+ nl
  +:+ "                " +:+ button "symptom" "Check Symptoms" +:+ nl
  +:+ "                " +:+ button "doctor" "Talk to a Doctor" +:+ nl
  +:+ "                " +:+ button "patient" "Join Patient Community" +:+ nl
  +:+ "            ".

Definition please_enter : string := "Please enter a message.".
Definition invalid_state : string := "Invalid state. Please start over.".
Definition apology : string := "Sorry, an error occurred. Please try again.".
Definition describe_symptoms : string :=
  "Please describe your symptoms (e.g., fever, cough, headache).".
Definition another_symptom : string :=
  "Please share another symptom or type 'done'.".

(** The triage prompt before and after the interpolated list. *)
Definition symptom_intro : string :=
  nl +:+ "        You are a medical assistant analyzing symptoms for a patient in rural Kenya. The patient has reported: ".

Definition symptom_outro : string :=
  ". " +:+ nl
  +:+ "        Provide a concise possible diagnosis (e.g., cold, flu, malaria) and recommend consulting a doctor. " +:+ nl
  +:+ "        Avoid definitive diagnoses; emphasize professional medical advice." +:+ nl
  +:+ "    ".

Definition symptom_prompt (symptoms : list string) : string :=
  symptom_intro +:+ join ", " symptoms +:+ symptom_outro.

Definition doctor_prompt (message : string) : string :=
  nl +:+ "        You are a medical assistant simulating a doctor consultation. The user has asked: "
  +:+ dq +:+ message +:+ dq +:+ ". " +:+ nl
  +:+ "        Provide general advice, avoid definitive diagnoses, and emphasize consulting a licensed doctor. " +:+ nl
  +:+ "        Keep the response concise and professional." +:+ nl
  +:+ "    ".

Definition patient_prompt (message : string) : string :=
  nl +:+ "        You are a friendly assistant in a patient community chat. The user shared: "
  +:+ dq +:+ message +:+ dq +:+ ". " +:+ nl
  +:+ "        Respond empathetically, encouraging sharing or advice from others, and keep the tone supportive." +:+ nl
  +:+ "    ".

End Literal.

Import Literal.

(** ** Session store *)

Definition new_session : Session :=
  {| history := []; chat_state := "initial"; symptoms := [] |}.

Definition append_history (m : Message) (s : Session) : Session :=
  {| history := history s ++ [m];
     chat_state := chat_state s;
     symptoms := symptoms s |}.

Definition set_chat_state (v : string) (s : Session) : Session :=
  {| history := history s; chat_state := v; symptoms := symptoms s |}.

Definition set_symptoms (v : list string) (s : Session) : Session :=
  {| history := history s; chat_state := chat_state s; symptoms := v |}.

Definition append_symptom (x : string) (s : Session) : Session :=
  set_symptoms (symptoms s ++ [x]) s.

(** [chat_sessions[user_id]], which raises when the key is absent. *)
Definition session (user_id : string) : M Session :=
  fun w =>
    match chat_sessions w !! user_id with
    | Some s => (inr s, w)
    | None => (inl KeyError, w)
    end.

(** A write through [chat_sessions[user_id]]: an assignment to one of its
    keys, or a mutation of one of its lists. *)
Definition update (user_id : string) (f : Session -> Session) : M unit :=
  fun w =>
    match chat_sessions w !! user_id with
    | Some s =>
        (inr tt, {| chat_sessions := <[user_id := f s]> (chat_sessions w);
                    posted := posted w |})
    | None => (inl KeyError, w)
    end.

(** ** Conversation router *)

Section Router.

Variable env : Env.

(** [symptoms] is the list object stored in the session of [owner]
    ([chat] passes [chat_sessions[user_id]["symptoms"]]), so [append]
    writes into the store; [history] is only read. *)
Definition handle_symptom_check (message : string) (owner : string)
    (history : list Message) : M (string * ModelUsed) :=
  if negb (truthy message)
  then mret (describe_symptoms, Null)
  else
    update owner (append_symptom (lower message));;
    s ← session owner;
    if ((length (symptoms s) <? 3)%nat
        && negb (bool_decide (lower message = "done")))
    then mret (another_symptom, Null)
    else
      response ← call_ai_api env "groq" (symptom_prompt (symptoms s)) history;
      mret (py_str env response +:+ "<br>"
              +:+ button "doctor" "Connect with a Doctor",
            Label "Llama 3.1 (Groq)").

Definition handle_doctor_chat (message : string) (history : list Message)
    : M (string * ModelUsed) :=
  response ← call_ai_api env "anthropic" (doctor_prompt message) history;
  mret (py_str env response +:+ "<br>" +:+ button "initial" "Back to Menu",
        Label "Claude 3.5 Sonnet").

Definition handle_patient_chat (message : string) (history : list Message)
    : M (string * ModelUsed) :=
  response ← call_ai_api env "openai" (patient_prompt message) history;
  mret (py_str env response +:+ "<br>" +:+ button "initial" "Back to Menu",
        Label "ChatGPT (GPT-4o)").

(** The branch on [chat_state] inside [try]. *)
Definition dispatch (user_id message chat_state : string)
    : M (string * ModelUsed) :=
  if decide (chat_state = "initial") then
    mret (menu, Null)
  else if decide (chat_state = "symptom") then
    s ← session user_id;
    '(response, model_used) ← handle_symptom_check message user_id (history s);
    s ← session user_id;
    update user_id
      (set_symptoms (if truthy response then [] else symptoms s));;
    update user_id
      (set_chat_state (if truthy response then "initial" else "symptom"));;
    mret (response, model_used)
  else if decide (chat_state = "doctor") then
    s ← session user_id;
    r ← handle_doctor_chat message (history s);
    update user_id (set_chat_state "initial");;
    mret r
  else if decide (chat_state = "patient") then
    s ← session user_id;
    r ← handle_patient_chat message (history s);
    update user_id (set_chat_state "initial");;
    mret r
  else
    mret (invalid_state, Null).

(** The document of the regular [return]: state and symptoms are read
    back from the stored session. *)
Definition reply (response : string) (s : Session) (model_used : ModelUsed)
    : Payload :=
  {| response := response;
     out_chat_state := chat_state s;
     out_symptoms := symptoms s;
     model_used := model_used |}.

(** The body of [try]. *)
Definition chat_try (user_id message chat_state : string) : M Payload :=
  '(response, model_used) ← dispatch user_id message chat_state;
  (if truthy response
   then update user_id (append_history (assistant_message response))
   else mret tt);;
  s ← session user_id;
  mret (reply response s model_used).

(** The writes between the validation and [try]. *)
Definition open_session (user_id message chat_state : string)
    (symptoms : list string) (w : World) : World :=
  let sessions :=
    match chat_sessions w !! user_id with
    | Some _ => chat_sessions w
    | None => <[user_id := new_session]> (chat_sessions w)
    end in
  let sessions :=
    if truthy message
    then alter (append_history (user_message message)) user_id sessions
    else sessions in
  let sessions := alter (set_chat_state chat_state) user_id sessions in
  let sessions := alter (set_symptoms symptoms) user_id sessions in
  {| chat_sessions := sessions; posted := posted w |}.

(** The handler of [POST /chat]: the reply and the process state it
    leaves. The [print] of the [except] clause writes to the console only and
    is left out. *)
Definition chat (data : ChatRequest) (w : World) : Payload * World :=
  let user_id := default "default" (req_user_id data) in
  let message := strip (default "" (req_message data)) in
  let chat_state := default "initial" (req_chat_state data) in
  let symptoms := default [] (req_symptoms data) in
  if negb (truthy message) && negb (bool_decide (chat_state = "initial"))
  then
    ({| response := please_enter;
        out_chat_state := chat_state;
        out_symptoms := symptoms;
        model_used := NoKey |}, w)
  else
    match chat_try user_id message chat_state
            (open_session user_id message chat_state symptoms w) with
    | (inr payload, w') => (payload, w')
    | (inl _, w') =>
        ({| response := apology;
            out_chat_state := "initial";
            out_symptoms := [];
            model_used := Null |}, w')
    end.

End Router.

(** ** Reading the outcome of a run *)

(** The process state in which [user_id] holds the session [s]. *)
Definition with_session (user_id : string) (s : Session) (w : World) : World :=
  {| chat_sessions := <[user_id := s]> (chat_sessions w);
     posted := posted w |}.

(** The session a request finds: the stored one, or the fresh one that the
    handler creates. *)
Definition found (user_id : string) (w : World) : Session :=
  default new_session (chat_sessions w !! user_id).

(** The entry a stripped message adds to the history: none when empty. *)
Definition said (message : string) : list Message :=
  if truthy message then [user_message message] else [].

Definition no_world : World := {| chat_sessions := ∅; posted := [] |}.

(** What a dispatch returns or raises after the requests [past], and what it
    hands to the transport; of the process state only the trace matters to
    the first, and nothing to the second (see [call_ai_api_run]). *)
Definition outcome (env : Env) (past : list HttpRequest)
    (provider prompt : string) (context : list Message) : exn + JSON :=
  fst (call_ai_api env provider prompt context
         {| chat_sessions := ∅; posted := past |}).

Definition sent (env : Env) (provider prompt : string)
    (context : list Message) : list HttpRequest :=
  posted (snd (call_ai_api env provider prompt context no_world)).

(** The four states of the conversation. *)
Definition states : list string := ["initial"; "symptom"; "doctor"; "patient"].

(** The fields of a request after the defaults of [data.get]. *)
Definition user_id_of (data : ChatRequest) : string :=
  default "default" (req_user_id data).
Definition message_of (data : ChatRequest) : string :=
  strip (default "" (req_message data)).
Definition chat_state_of (data : ChatRequest) : string :=
  default "initial" (req_chat_state data).
Definition symptoms_of (data : ChatRequest) : list string :=
  default [] (req_symptoms data).

(** The session stored for [user_id] after a run, [new_session] if none. *)
Definition stored (user_id : string) (r : Payload * World) : Session :=
  found user_id (snd r).

(** A computation that neither reads nor writes the process state. *)
Definition stateless {A} (m : M A) : Prop := ∃ r, ∀ w, m w = (r, w).

(** ** Serving requests in sequence *)

(** The route [/chat] under [app.run]: the requests are handled one after
    the other, each on the process state the one before it left. *)
Fixpoint serve (env : Env) (requests : list ChatRequest) (w : World)
    : list Payload * World :=
  match requests with
  | [] => ([], w)
  | data :: rest =>
      let '(payload, w1) := chat env data w in
      let '(payloads, w2) := serve env rest w1 in
      (payload :: payloads, w2)
  end.

(** The entries of a history written by [speaker]. *)
Definition entries_of (speaker : string) (h : list Message) : list Message :=
  filter (λ e, role e = speaker) h.

(** The reply of the [except] clause. *)
Definition apology_reply : Payload :=
  {| response := apology; out_chat_state := "initial";
     out_symptoms := []; model_used := Null |}.

(** A request gets past the validation of the message. *)
Definition processed (data : ChatRequest) : Prop :=
  message_of data ≠ "" ∨ chat_state_of data = "initial".

#[global] Instance ModelUsed_eq_dec : EqDecision ModelUsed.
Proof. solve_decision. Defined.

#[global] Instance Payload_eq_dec : EqDecision Payload.
Proof. solve_decision. Defined.

(** The non-empty stripped messages among the requests of [user_id], in the
    order of the requests. *)
Definition messages_from (user_id : string) (requests : list ChatRequest)
    : list string :=
  filter (λ m, m ≠ "")
    (message_of <$> filter (λ d, user_id_of d = user_id) requests).

(** A reply that is neither the validation reply nor the apology. *)
Definition answered (p : Payload) : Prop :=
  model_used p ≠ NoKey ∧ p ≠ apology_reply.

#[global] Instance answered_dec (p : Payload) : Decision (answered p).
Proof. unfold answered. apply _. Defined.

(** Two more environments for concrete runs. *)
Module Sample.

(** All three credentials set; every provider answers 200 with a body that
    is not JSON. *)
Definition garbled : Env :=
  {| OPENAI_API_KEY := Some "sk-openai";
     ANTHROPIC_API_KEY := Some "sk-anthropic";
     GROQ_API_KEY := Some "sk-groq";
     requests_post := fun _ _ => inr {| status_code := 200; json := None |};
     py_str := fun j => match j with JStr s => s | _ => "" end |}.

(** All three credentials set; the connection is refused. *)
Definition refusing : Env :=
  {| OPENAI_API_KEY := Some "sk-openai";
     ANTHROPIC_API_KEY := Some "sk-anthropic";
     GROQ_API_KEY := Some "sk-groq";
     requests_post := fun _ _ => inl ConnectionError;
     py_str := fun j => match j with JStr s => s | _ => "" end |}.

(** A request with all four keys. *)
Definition request_of (user_id message chat_state : string)
    (symptoms : list string) : ChatRequest :=
  {| req_user_id := Some user_id;
     req_message := Some message;
     req_chat_state := Some chat_state;
     req_symptoms := Some symptoms |}.

End Sample.

(** ** Concrete runs

    Environments and requests on which the statements below are evaluated. *)

Module Scenario.

(** [str()] on a reply that is text. *)
Definition text_of (j : JSON) : string :=
  match j with
  | JStr s => s
  | _ => ""
  end.

(** All three credentials set, every provider answers 500. *)
Definition failing : Env :=
  {| OPENAI_API_KEY := Some "sk-openai";
     ANTHROPIC_API_KEY := Some "sk-anthropic";
     GROQ_API_KEY := Some "sk-groq";
     requests_post := fun _ _ => inr {| status_code := 500; json := None |};
     py_str := text_of |}.

(** No credential set; the transport would refuse the connection. *)
Definition unconfigured : Env :=
  {| OPENAI_API_KEY := None;
     ANTHROPIC_API_KEY := None;
     GROQ_API_KEY := Some "";
     requests_post := fun _ _ => inl ConnectionError;
     py_str := text_of |}.

(** All three credentials set, every provider answers 200 with the text
    ["Rest."] in both reply shapes. *)
Definition answering : Env :=
  {| OPENAI_API_KEY := Some "sk-openai";
     ANTHROPIC_API_KEY := Some "sk-anthropic";
     GROQ_API_KEY := Some "sk-groq";
     requests_post := fun _ _ =>
       inr {| status_code := 200;
              json := Some (JObj
                [("content", JArr [JObj [("text", JStr "Rest.")]]);
                 ("choices",
                  JArr [JObj [("message",
                               JObj [("content", JStr "Rest.")])]])]) |};
     py_str := text_of |}.

Definition request (message chat_state : string) (symptoms : list string)
    : ChatRequest :=
  {| req_user_id := Some "u1";
     req_message := Some message;
     req_chat_state := Some chat_state;
     req_symptoms := Some symptoms |}.

End Scenario.

(** ** Basic facts *)

Lemma truthy_true_iff (s : string) : truthy s = true ↔ s ≠ "".
Proof. destruct s; simpl; split; intros; congruence. Qed.

Lemma said_nonempty (m : string) : m ≠ "" → said m = [user_message m].
Proof. intros H. unfold said. apply truthy_true_iff in H. by rewrite H. Qed.

Lemma session_insert uid s (m : gmap string Session) p :
  session uid {| chat_sessions := <[uid := s]> m; posted := p |}
  = (inr s, {| chat_sessions := <[uid := s]> m; posted := p |}).
Proof. unfold session. simpl. by rewrite lookup_insert_eq. Qed.

Lemma update_insert uid f s (m : gmap string Session) p :
  update uid f {| chat_sessions := <[uid := s]> m; posted := p |}
  = (inr tt, {| chat_sessions := <[uid := f s]> m; posted := p |}).
Proof.
  unfold update. simpl. rewrite lookup_insert_eq. by rewrite insert_insert_eq.
Qed.

Lemma bind_inr {A B} (m : M A) (k : A → M B) w a w' :
  m w = (inr a, w') → (m ≫= k) w = k a w'.
Proof. intros H. unfold mbind, eff_bind, bind. by rewrite H. Qed.

Lemma bind_inl {A B} (m : M A) (k : A → M B) w e w' :
  m w = (inl e, w') → (m ≫= k) w = (inl e, w').
Proof. intros H. unfold mbind, eff_bind, bind. by rewrite H. Qed.

Lemma alter_found {A} (f : A → A) (m : gmap string A) i x :
  m !! i = Some x → alter f i m = <[i := f x]> m.
Proof.
  intros H. apply map_eq. intros j. destruct (decide (i = j)) as [<-|Hne].
  - by rewrite lookup_alter_eq, lookup_insert_eq, H.
  - by rewrite lookup_alter_ne, lookup_insert_ne.
Qed.

(** The writes before [try] leave the session of the request with the
    message appended and the state and symptoms of the request. *)
Lemma open_session_eq uid m cs syms w :
  open_session uid m cs syms w
  = with_session uid
      {| history := history (found uid w) ++ said m;
         chat_state := cs;
         symptoms := syms |} w.
Proof.
  unfold open_session, with_session, found, said. f_equal.
  destruct (chat_sessions w !! uid) as [s|] eqn:E; simpl.
  - destruct (truthy m).
    + rewrite (alter_found _ _ _ _ E).
      rewrite !alter_insert_eq. done.
    + rewrite (alter_found _ _ _ _ E).
      rewrite !alter_insert_eq.
      unfold set_symptoms, set_chat_state. simpl. by rewrite app_nil_r.
  - destruct (truthy m); rewrite !alter_insert_eq, ?insert_insert_eq; done.
Qed.

(** ** The dispatch as a function of its arguments *)

Lemma stateless_ret {A} (a : A) : stateless (mret a).
Proof. by exists (inr a). Qed.

Lemma stateless_raise {A} (e : exn) : stateless (@raise A e).
Proof. by exists (inl e). Qed.

Lemma stateless_bind {A B} (m : M A) (k : A → M B) :
  stateless m → (∀ a, stateless (k a)) → stateless (m ≫= k).
Proof.
  intros [[e|a] Hm] Hk.
  - exists (inl e). intros w. by rewrite (bind_inl _ _ _ _ _ (Hm w)).
  - destruct (Hk a) as [r Hr]. exists r. intros w.
    by rewrite (bind_inr _ _ _ _ _ (Hm w)).
Qed.

Lemma stateless_getitem_str j k : stateless (getitem_str j k).
Proof.
  destruct j; try apply stateless_raise. simpl.
  destruct (assoc k fields); [apply stateless_ret | apply stateless_raise].
Qed.

Lemma stateless_getitem_0 j : stateless (getitem_0 j).
Proof.
  destruct j as [| | |[|]|[|]|]; first [apply stateless_raise | apply stateless_ret].
Qed.

Lemma stateless_read_reply provider response :
  stateless (read_reply provider response).
Proof.
  unfold read_reply. apply stateless_bind.
  - unfold raise_for_status.
    destruct (_ && _)%bool; [apply stateless_raise | apply stateless_ret].
  - intros _. apply stateless_bind.
    + unfold response_json.
      destruct (json response); [apply stateless_ret | apply stateless_raise].
    + intros j. destruct (decide (provider = "anthropic"));
        repeat (apply stateless_bind; [|intros ?]);
        first [apply stateless_getitem_str | apply stateless_getitem_0].
Qed.

Lemma call_ai_api_run env provider prompt ctx w :
  call_ai_api env provider prompt ctx w
  = (outcome env (posted w) provider prompt ctx,
     {| chat_sessions := chat_sessions w;
        posted := posted w ++ sent env provider prompt ctx |}).
Proof.
  unfold outcome, sent, call_ai_api.
  destruct (API_CONFIG env !! provider) as [cfg|];
    [destruct (key cfg) as [[|c k]|] |];
    try (destruct w; unfold raise; cbn [fst snd posted chat_sessions];
         by rewrite app_nil_r).
  unfold mbind, eff_bind, bind, post, no_world. cbn [posted chat_sessions].
  destruct (requests_post env (posted w) _) as [e|resp];
    destruct (requests_post env [] _) as [e'|resp']; cbv beta iota;
    repeat match goal with
      | |- context [read_reply provider ?r _] =>
          let H := fresh in
          destruct (stateless_read_reply provider r) as [? H];
          rewrite !H; clear H
      end; done.
Qed.

Lemma truthy_app_r (a b : string) : truthy b = true → truthy (a +:+ b) = true.
Proof. intros H. destruct a; simpl; done. Qed.

Lemma truthy_menu : truthy menu = true.
Proof. reflexivity. Qed.

Lemma truthy_invalid_state : truthy invalid_state = true.
Proof. reflexivity. Qed.

Lemma truthy_another_symptom : truthy another_symptom = true.
Proof. reflexivity. Qed.

(** One step of a run on a state whose session is known. *)
Ltac run_step :=
  first [ rewrite session_insert | rewrite update_insert
        | rewrite call_ai_api_run
        | rewrite truthy_menu | rewrite truthy_invalid_state
        | rewrite truthy_another_symptom
        | rewrite truthy_app_r by reflexivity ];
  cbv beta iota;
  cbn [chat_sessions posted history chat_state symptoms negb andb].

Ltac run :=
  unfold mbind, eff_bind, bind, mret, eff_ret, ret;
  cbv beta iota; cbn [chat_sessions posted history chat_state symptoms negb andb];
  repeat run_step.

(** ** The body of [try], branch by branch *)

Section TryBody.

Variable env : Env.
Variables (uid msg : string) (h : list Message) (c : string)
          (sy : list string) (m : gmap string Session)
          (p : list HttpRequest).

Let opened : World :=
  {| chat_sessions :=
       <[uid := {| history := h; chat_state := c; symptoms := sy |}]> m;
     posted := p |}.

Lemma try_initial :
  c = "initial" →
  chat_try env uid msg c opened
  = (inr {| response := menu; out_chat_state := "initial";
            out_symptoms := sy; model_used := Null |},
     {| chat_sessions :=
          <[uid := {| history := h ++ [assistant_message menu];
                      chat_state := "initial"; symptoms := sy |}]> m;
        posted := p |}).
Proof.
  intros ->. unfold opened, chat_try, dispatch.
  case_decide; [|done]. run. done.
Qed.

Lemma try_invalid :
  c ∉ states →
  chat_try env uid msg c opened
  = (inr {| response := invalid_state; out_chat_state := c;
            out_symptoms := sy; model_used := Null |},
     {| chat_sessions :=
          <[uid := {| history := h ++ [assistant_message invalid_state];
                      chat_state := c; symptoms := sy |}]> m;
        posted := p |}).
Proof.
  intros Hc. unfold opened, chat_try, dispatch.
  repeat (case_decide; [exfalso; apply Hc; subst c; unfold states; set_solver|]).
  run. done.
Qed.

Lemma try_doctor :
  c = "doctor" →
  chat_try env uid msg c opened
  = match outcome env p "anthropic" (doctor_prompt msg) h with
    | inl e =>
        (inl e,
         {| chat_sessions :=
              <[uid := {| history := h; chat_state := "doctor";
                          symptoms := sy |}]> m;
            posted := p ++ sent env "anthropic" (doctor_prompt msg) h |})
    | inr j =>
        let text := py_str env j +:+ "<br>"
                    +:+ button "initial" "Back to Menu" in
        (inr {| response := text; out_chat_state := "initial";
                out_symptoms := sy; model_used := Label "Claude 3.5 Sonnet" |},
         {| chat_sessions :=
              <[uid := {| history := h ++ [assistant_message text];
                          chat_state := "initial"; symptoms := sy |}]> m;
            posted := p ++ sent env "anthropic" (doctor_prompt msg) h |})
    end.
Proof.
  intros ->. unfold opened, chat_try, dispatch.
  repeat (case_decide; [discriminate|]). case_decide; [|done].
  unfold handle_doctor_chat. run.
  destruct (outcome env p "anthropic" (doctor_prompt msg) h) as [e|j]; [done|].
  run. done.
Qed.

Lemma try_patient :
  c = "patient" →
  chat_try env uid msg c opened
  = match outcome env p "openai" (patient_prompt msg) h with
    | inl e =>
        (inl e,
         {| chat_sessions :=
              <[uid := {| history := h; chat_state := "patient";
                          symptoms := sy |}]> m;
            posted := p ++ sent env "openai" (patient_prompt msg) h |})
    | inr j =>
        let text := py_str env j +:+ "<br>"
                    +:+ button "initial" "Back to Menu" in
        (inr {| response := text; out_chat_state := "initial";
                out_symptoms := sy; model_used := Label "ChatGPT (GPT-4o)" |},
         {| chat_sessions :=
              <[uid := {| history := h ++ [assistant_message text];
                          chat_state := "initial"; symptoms := sy |}]> m;
            posted := p ++ sent env "openai" (patient_prompt msg) h |})
    end.
Proof.
  intros ->. unfold opened, chat_try, dispatch.
  repeat (case_decide; [discriminate|]). case_decide; [|done].
  unfold handle_patient_chat. run.
  destruct (outcome env p "openai" (patient_prompt msg) h) as [e|j]; [done|].
  run. done.
Qed.

Lemma try_symptom_followup :
  c = "symptom" → msg ≠ "" →
  (length (sy ++ [lower msg]) < 3)%nat → lower msg ≠ "done" →
  chat_try env uid msg c opened
  = (inr {| response := another_symptom; out_chat_state := "initial";
            out_symptoms := []; model_used := Null |},
     {| chat_sessions :=
          <[uid := {| history := h ++ [assistant_message another_symptom];
                      chat_state := "initial"; symptoms := [] |}]> m;
        posted := p |}).
Proof.
  intros -> Hm Hlen Hdone. unfold opened, chat_try, dispatch.
  case_decide; [discriminate|]. case_decide; [|done].
  unfold handle_symptom_check. apply truthy_true_iff in Hm. rewrite Hm.
  cbn [negb].
  run. unfold append_symptom, set_symptoms. run.
  apply Nat.ltb_lt in Hlen. rewrite Hlen.
  rewrite bool_decide_eq_false_2 by done. run. done.
Qed.

Lemma try_symptom_triage :
  c = "symptom" → msg ≠ "" →
  (3 ≤ length (sy ++ [lower msg]))%nat ∨ lower msg = "done" →
  chat_try env uid msg c opened
  = match outcome env p "groq" (symptom_prompt (sy ++ [lower msg])) h with
    | inl e =>
        (inl e,
         {| chat_sessions :=
              <[uid := {| history := h; chat_state := "symptom";
                          symptoms := sy ++ [lower msg] |}]> m;
            posted := p ++ sent env "groq"
                             (symptom_prompt (sy ++ [lower msg])) h |})
    | inr j =>
        let text := py_str env j +:+ "<br>"
                    +:+ button "doctor" "Connect with a Doctor" in
        (inr {| response := text; out_chat_state := "initial";
                out_symptoms := []; model_used := Label "Llama 3.1 (Groq)" |},
         {| chat_sessions :=
              <[uid := {| history := h ++ [assistant_message text];
                          chat_state := "initial"; symptoms := [] |}]> m;
            posted := p ++ sent env "groq"
                             (symptom_prompt (sy ++ [lower msg])) h |})
    end.
Proof.
  intros -> Hm Hthr. unfold opened, chat_try, dispatch.
  case_decide; [discriminate|]. case_decide; [|done].
  unfold handle_symptom_check. apply truthy_true_iff in Hm. rewrite Hm.
  cbn [negb].
  run. unfold append_symptom, set_symptoms. run.
  assert ((length (sy ++ [lower msg]) <? 3)%nat
          && negb (bool_decide (lower msg = "done")) = false) as ->.
  { destruct Hthr as [H3|Hd].
    - apply Nat.ltb_ge in H3. by rewrite H3.
    - rewrite (bool_decide_eq_true_2 _ Hd). apply andb_false_r. }
  run.
  destruct (outcome env p "groq" _ h) as [e|j]; [done|].
  run. done.
Qed.

End TryBody.

(** ** Provider dispatch: configuration and request *)

Lemma API_CONFIG_unknown env provider :
  provider ∉ ["openai"; "anthropic"; "groq"] → API_CONFIG env !! provider = None.
Proof.
  intros H. unfold API_CONFIG.
  rewrite !lookup_insert_ne, lookup_empty; [done|..];
    intros <-; apply H; set_solver.
Qed.

Lemma call_unconfigured env provider prompt context w :
  (API_CONFIG env !! provider = None
   ∨ ∃ config, API_CONFIG env !! provider = Some config
               ∧ (key config = None ∨ key config = Some "")) →
  call_ai_api env provider prompt context w
  = (inl (ValueError (not_configured provider)), w).
Proof.
  unfold call_ai_api. intros [-> | (config & -> & [-> | ->])]; done.
Qed.

Lemma call_configured env provider config api_key prompt context w :
  API_CONFIG env !! provider = Some config →
  key config = Some api_key → api_key ≠ "" →
  snd (call_ai_api env provider prompt context w)
  = {| chat_sessions := chat_sessions w;
       posted := posted w
                 ++ [build_request provider config api_key prompt context] |}.
Proof.
  intros Hc Hk Hne. unfold call_ai_api. rewrite Hc, Hk.
  destruct api_key as [|a k]; [done|].
  unfold mbind, eff_bind, bind, post.
  destruct (requests_post env _ _) as [e|resp]; [done|].
  destruct (stateless_read_reply provider resp) as [r Hr]. by rewrite Hr.
Qed.

Lemma sent_configured env provider config api_key prompt context :
  API_CONFIG env !! provider = Some config →
  key config = Some api_key → api_key ≠ "" →
  sent env provider prompt context
  = [build_request provider config api_key prompt context].
Proof.
  intros Hc Hk Hne. unfold sent.
  by rewrite (call_configured _ _ _ _ _ _ _ Hc Hk Hne).
Qed.

(** C7. A provider name outside the table, or one whose credential is not
    set or is the empty text, makes [call_ai_api] raise the configuration
    error to its caller; the process state, and with it the trace of
    transport calls, is the one before the call. *)
Theorem unconfigured_provider_raises env provider prompt context w :
  (provider ∉ ["openai"; "anthropic"; "groq"]
   ∨ ∃ config, API_CONFIG env !! provider = Some config
               ∧ (key config = None ∨ key config = Some "")) →
  call_ai_api env provider prompt context w
  = (inl (ValueError (not_configured provider)), w).
Proof.
  intros [Hu | Hk]; apply call_unconfigured; [left | by right].
  by apply API_CONFIG_unknown.
Qed.

(** C8. The request of a configured provider authenticates in one way only:
    for ["anthropic"] it carries [x-api-key] and no [Authorization]; for
    ["openai"] and ["groq"] it carries the bearer [Authorization] and no
    [x-api-key]. *)
Theorem auth_header_per_provider env provider config api_key prompt context w :
  API_CONFIG env !! provider = Some config →
  key config = Some api_key → api_key ≠ "" →
  ∃ r,
    posted (snd (call_ai_api env provider prompt context w)) = posted w ++ [r]
    ∧ (provider = "anthropic" →
       headers r !! "x-api-key" = Some api_key
       ∧ headers r !! "Authorization" = None)
    ∧ (provider = "openai" ∨ provider = "groq" →
       headers r !! "Authorization" = Some ("Bearer " +:+ api_key)
       ∧ headers r !! "x-api-key" = None).
Proof.
  intros Hc Hk Hne.
  exists (build_request provider config api_key prompt context).
  rewrite (call_configured _ _ _ _ _ _ _ Hc Hk Hne).
  split; [done|]. unfold build_request, build_headers. simpl.
  split.
  - intros ->. rewrite decide_True by done.
    by rewrite lookup_delete_ne, lookup_insert_eq, lookup_delete_eq.
  - intros Hp. rewrite decide_False by (destruct Hp as [-> | ->]; done).
    rewrite lookup_insert_ne, lookup_insert_eq by done.
    by rewrite !lookup_insert_ne, lookup_empty.
Qed.

(** C9. The body of the request of a configured provider lists the context
    it was given followed by one entry of role ["user"] holding the prompt,
    and asks for at most 500 tokens. *)
Theorem payload_messages_and_budget env provider config api_key prompt context w :
  API_CONFIG env !! provider = Some config →
  key config = Some api_key → api_key ≠ "" →
  ∃ r,
    posted (snd (call_ai_api env provider prompt context w)) = posted w ++ [r]
    ∧ messages (json_body r)
      = context ++ [{| role := "user"; content := prompt |}]
    ∧ max_tokens (json_body r) = 500.
Proof.
  intros Hc Hk Hne.
  exists (build_request provider config api_key prompt context).
  rewrite (call_configured _ _ _ _ _ _ _ Hc Hk Hne).
  split; [done|]. unfold build_request, build_body. simpl.
  by destruct (decide (provider = "anthropic")).
Qed.

(** ** The handler, request by request *)

Lemma chat_not_short_circuit env data w :
  message_of data ≠ "" →
  chat env data w
  = match chat_try env (user_id_of data) (message_of data) (chat_state_of data)
            (open_session (user_id_of data) (message_of data)
               (chat_state_of data) (symptoms_of data) w) with
    | (inr payload, w') => (payload, w')
    | (inl _, w') =>
        ({| response := apology; out_chat_state := "initial";
            out_symptoms := []; model_used := Null |}, w')
    end.
Proof.
  intros H. unfold chat.
  fold (message_of data) (chat_state_of data) (user_id_of data)
    (symptoms_of data).
  apply truthy_true_iff in H. by rewrite H.
Qed.

Lemma chat_initial_run env data w :
  chat_state_of data = "initial" →
  chat env data w
  = ({| response := menu; out_chat_state := "initial";
        out_symptoms := symptoms_of data; model_used := Null |},
     with_session (user_id_of data)
       {| history := (history (found (user_id_of data) w)
                      ++ said (message_of data))
                     ++ [assistant_message menu];
          chat_state := "initial";
          symptoms := symptoms_of data |} w).
Proof.
  intros Hc. unfold chat.
  fold (message_of data) (chat_state_of data) (user_id_of data)
    (symptoms_of data).
  rewrite Hc, (bool_decide_eq_true_2 _ eq_refl), andb_false_r.
  rewrite open_session_eq. unfold with_session.
  by rewrite try_initial.
Qed.

(** C5. A request whose message is empty once stripped, in a state other
    than ["initial"], is answered with the validation text and the state and
    symptoms it carried; the process state is left as it was: no session is
    created or written and nothing is sent to a provider. *)
Theorem empty_message_short_circuit env data w :
  message_of data = "" →
  chat_state_of data ≠ "initial" →
  chat env data w
  = ({| response := "Please enter a message.";
        out_chat_state := chat_state_of data;
        out_symptoms := symptoms_of data;
        model_used := NoKey |}, w).
Proof.
  intros Hm Hc. unfold chat.
  fold (message_of data) (chat_state_of data) (user_id_of data)
    (symptoms_of data).
  by rewrite Hm, (bool_decide_eq_false_2 _ Hc).
Qed.

(** C2, as the code has it. A request with a non-empty message and a state
    outside the four known ones is answered with the invalid-state text and
    no model label, without a provider call; the session gains the user
    entry and then an assistant entry holding that text, and both the stored
    and the returned state are the unknown text of the request. *)
Theorem chat_invalid_state env data w :
  message_of data ≠ "" →
  chat_state_of data ∉ states →
  chat env data w
  = ({| response := "Invalid state. Please start over.";
        out_chat_state := chat_state_of data;
        out_symptoms := symptoms_of data;
        model_used := Null |},
     with_session (user_id_of data)
       {| history := history (found (user_id_of data) w)
                     ++ [user_message (message_of data);
                         assistant_message "Invalid state. Please start over."];
          chat_state := chat_state_of data;
          symptoms := symptoms_of data |} w).
Proof.
  intros Hm Hc. rewrite chat_not_short_circuit by done.
  rewrite open_session_eq, (said_nonempty _ Hm). unfold with_session.
  rewrite try_invalid by done. by rewrite <- app_assoc.
Qed.

Lemma chat_symptom_followup_run env data w :
  chat_state_of data = "symptom" →
  message_of data ≠ "" →
  (length (symptoms_of data ++ [lower (message_of data)]) < 3)%nat →
  lower (message_of data) ≠ "done" →
  chat env data w
  = ({| response := another_symptom; out_chat_state := "initial";
        out_symptoms := []; model_used := Null |},
     with_session (user_id_of data)
       {| history := history (found (user_id_of data) w)
                     ++ [user_message (message_of data);
                         assistant_message another_symptom];
          chat_state := "initial";
          symptoms := [] |} w).
Proof.
  intros Hc Hm Hlen Hdone. rewrite chat_not_short_circuit by done.
  rewrite open_session_eq, (said_nonempty _ Hm). unfold with_session.
  rewrite try_symptom_followup by done. by rewrite <- app_assoc.
Qed.

Lemma chat_symptom_triage_run env data w :
  chat_state_of data = "symptom" →
  message_of data ≠ "" →
  (3 ≤ length (symptoms_of data ++ [lower (message_of data)]))%nat
  ∨ lower (message_of data) = "done" →
  let uid := user_id_of data in
  let h := history (found uid w) ++ [user_message (message_of data)] in
  let sy := symptoms_of data ++ [lower (message_of data)] in
  chat env data w
  = match outcome env (posted w) "groq" (symptom_prompt sy) h with
    | inl e =>
        ({| response := apology; out_chat_state := "initial";
            out_symptoms := []; model_used := Null |},
         {| chat_sessions :=
              <[uid := {| history := h; chat_state := "symptom";
                          symptoms := sy |}]> (chat_sessions w);
            posted := posted w ++ sent env "groq" (symptom_prompt sy) h |})
    | inr j =>
        let text := py_str env j +:+ "<br>"
                    +:+ button "doctor" "Connect with a Doctor" in
        ({| response := text; out_chat_state := "initial";
            out_symptoms := []; model_used := Label "Llama 3.1 (Groq)" |},
         {| chat_sessions :=
              <[uid := {| history := h ++ [assistant_message text];
                          chat_state := "initial"; symptoms := [] |}]>
                (chat_sessions w);
            posted := posted w ++ sent env "groq" (symptom_prompt sy) h |})
    end.
Proof.
  intros Hc Hm Hthr uid h sy. rewrite chat_not_short_circuit by done.
  rewrite open_session_eq, (said_nonempty _ Hm). unfold with_session.
  rewrite try_symptom_triage by done. fold uid h sy.
  by destruct (outcome env (posted w) "groq" (symptom_prompt sy) h).
Qed.

Lemma chat_doctor_run env data w :
  chat_state_of data = "doctor" →
  message_of data ≠ "" →
  let uid := user_id_of data in
  let h := history (found uid w) ++ [user_message (message_of data)] in
  let prompt := doctor_prompt (message_of data) in
  chat env data w
  = match outcome env (posted w) "anthropic" prompt h with
    | inl e =>
        ({| response := apology; out_chat_state := "initial";
            out_symptoms := []; model_used := Null |},
         {| chat_sessions :=
              <[uid := {| history := h; chat_state := "doctor";
                          symptoms := symptoms_of data |}]> (chat_sessions w);
            posted := posted w ++ sent env "anthropic" prompt h |})
    | inr j =>
        let text := py_str env j +:+ "<br>"
                    +:+ button "initial" "Back to Menu" in
        ({| response := text; out_chat_state := "initial";
            out_symptoms := symptoms_of data;
            model_used := Label "Claude 3.5 Sonnet" |},
         {| chat_sessions :=
              <[uid := {| history := h ++ [assistant_message text];
                          chat_state := "initial";
                          symptoms := symptoms_of data |}]> (chat_sessions w);
            posted := posted w ++ sent env "anthropic" prompt h |})
    end.
Proof.
  intros Hc Hm uid h prompt. rewrite chat_not_short_circuit by done.
  rewrite open_session_eq, (said_nonempty _ Hm). unfold with_session.
  rewrite try_doctor by done. fold uid h prompt.
  by destruct (outcome env (posted w) "anthropic" prompt h).
Qed.

Lemma chat_patient_run env data w :
  chat_state_of data = "patient" →
  message_of data ≠ "" →
  let uid := user_id_of data in
  let h := history (found uid w) ++ [user_message (message_of data)] in
  let prompt := patient_prompt (message_of data) in
  chat env data w
  = match outcome env (posted w) "openai" prompt h with
    | inl e =>
        ({| response := apology; out_chat_state := "initial";
            out_symptoms := []; model_used := Null |},
         {| chat_sessions :=
              <[uid := {| history := h; chat_state := "patient";
                          symptoms := symptoms_of data |}]> (chat_sessions w);
            posted := posted w ++ sent env "openai" prompt h |})
    | inr j =>
        let text := py_str env j +:+ "<br>"
                    +:+ button "initial" "Back to Menu" in
        ({| response := text; out_chat_state := "initial";
            out_symptoms := symptoms_of data;
            model_used := Label "ChatGPT (GPT-4o)" |},
         {| chat_sessions :=
              <[uid := {| history := h ++ [assistant_message text];
                          chat_state := "initial";
                          symptoms := symptoms_of data |}]> (chat_sessions w);
            posted := posted w ++ sent env "openai" prompt h |})
    end.
Proof.
  intros Hc Hm uid h prompt. rewrite chat_not_short_circuit by done.
  rewrite open_session_eq, (said_nonempty _ Hm). unfold with_session.
  rewrite try_patient by done. fold uid h prompt.
  by destruct (outcome env (posted w) "openai" prompt h).
Qed.

Lemma stored_insert uid s (m : gmap string Session) p a :
  stored uid (a, {| chat_sessions := <[uid := s]> m; posted := p |}) = s.
Proof. unfold stored, found. simpl. by rewrite lookup_insert_eq. Qed.

(** C3. In state ["doctor"], when the dispatch to the provider raises, the
    reply is the apology with state ["initial"], no symptoms and a null model
    label; the stored history ends with the user entry of this request, with
    no assistant entry after it. *)
Theorem doctor_failure_reply env data w e :
  chat_state_of data = "doctor" →
  message_of data ≠ "" →
  outcome env (posted w) "anthropic" (doctor_prompt (message_of data))
    (history (found (user_id_of data) w) ++ [user_message (message_of data)])
  = inl e →
  fst (chat env data w)
  = {| response := "Sorry, an error occurred. Please try again.";
       out_chat_state := "initial";
       out_symptoms := [];
       model_used := Null |}
  ∧ history (stored (user_id_of data) (chat env data w))
    = history (found (user_id_of data) w)
      ++ [{| role := "user"; content := message_of data |}].
Proof.
  intros Hc Hm He. rewrite (chat_doctor_run env data w Hc Hm).
  cbv zeta. rewrite He. by rewrite stored_insert.
Qed.

(** C4. When the dispatch of a turn raises, nothing is written to the store
    after the raise: the stored state is still the one of the request and the
    stored symptoms still hold the entry appended in a symptom turn, while
    the reply reports ["initial"] and no symptoms; the stored and the
    returned state differ. *)
Theorem failed_turn_keeps_store env data w e :
  let uid := user_id_of data in
  let m := message_of data in
  let h := history (found uid w) ++ [user_message m] in
  m ≠ "" →
  (chat_state_of data = "doctor"
   ∧ outcome env (posted w) "anthropic" (doctor_prompt m) h = inl e)
  ∨ (chat_state_of data = "patient"
     ∧ outcome env (posted w) "openai" (patient_prompt m) h = inl e)
  ∨ (chat_state_of data = "symptom"
     ∧ ((3 ≤ length (symptoms_of data ++ [lower m]))%nat ∨ lower m = "done")
     ∧ outcome env (posted w) "groq"
         (symptom_prompt (symptoms_of data ++ [lower m])) h = inl e) →
  chat_sessions (snd (chat env data w)) !! uid
  = Some {| history := h;
            chat_state := chat_state_of data;
            symptoms := if decide (chat_state_of data = "symptom")
                        then symptoms_of data ++ [lower m]
                        else symptoms_of data |}
  ∧ out_chat_state (fst (chat env data w)) = "initial"
  ∧ out_symptoms (fst (chat env data w)) = []
  ∧ chat_state (stored uid (chat env data w))
    ≠ out_chat_state (fst (chat env data w)).
Proof.
  intros uid m h Hm [[Hc He] | [[Hc He] | (Hc & Hthr & He)]].
  - rewrite (chat_doctor_run env data w Hc Hm). cbv zeta.
    fold uid m h. rewrite He, Hc, stored_insert. simpl.
    by rewrite lookup_insert_eq.
  - rewrite (chat_patient_run env data w Hc Hm). cbv zeta.
    fold uid m h. rewrite He, Hc, stored_insert. simpl.
    by rewrite lookup_insert_eq.
  - rewrite (chat_symptom_triage_run env data w Hc Hm Hthr). cbv zeta.
    fold uid m h. rewrite He, Hc, stored_insert. simpl.
    by rewrite lookup_insert_eq.
Qed.

Lemma found_with_session uid s w : found uid (with_session uid s w) = s.
Proof. unfold found, with_session. simpl. by rewrite lookup_insert_eq. Qed.

Lemma with_session_twice uid s s' w :
  with_session uid s (with_session uid s' w) = with_session uid s w.
Proof. unfold with_session. simpl. by rewrite insert_insert_eq. Qed.

(** C6, as the code has it. Two identical requests in state ["initial"] from
    a user without a session are answered alike, with the menu; each of them
    appends the user entry of its message, if not empty, and then one
    assistant entry holding the menu; nothing is sent to a provider. *)
Theorem initial_twice env data w :
  chat_sessions w !! user_id_of data = None →
  chat_state_of data = "initial" →
  let r1 := chat env data w in
  let r2 := chat env data (snd r1) in
  let turn := said (message_of data) ++ [assistant_message menu] in
  fst r1 = fst r2
  ∧ response (fst r1) = menu
  ∧ (said (message_of data) = []
     ∨ said (message_of data) = [user_message (message_of data)])
  ∧ history (stored (user_id_of data) r1) = turn
  ∧ history (stored (user_id_of data) r2) = turn ++ turn
  ∧ posted (snd r2) = posted w.
Proof.
  intros Hnew Hc. cbv zeta.
  rewrite (chat_initial_run env data w Hc). cbn [fst snd].
  rewrite (chat_initial_run env data _ Hc). cbn [fst snd].
  rewrite found_with_session, with_session_twice. cbn [history].
  unfold stored. cbn [snd]. rewrite !found_with_session. cbn [history].
  unfold found at 1 2. rewrite Hnew. simpl.
  repeat split; try done.
  - unfold said. destruct (truthy (message_of data)); auto.
  - by rewrite <- !app_assoc.
Qed.

Lemma append_assoc (a b c : string) : (a +:+ b) +:+ c = a +:+ (b +:+ c).
Proof.
  induction a as [|x a IH]; [done|].
  change (String x ((a +:+ b) +:+ c) = String x (a +:+ (b +:+ c))).
  by rewrite IH.
Qed.

Lemma join_snoc sep (l : list string) x :
  ∃ lead, join sep (l ++ [x]) = lead +:+ x.
Proof.
  induction l as [|y l [lead IH]].
  - by exists "".
  - exists (y +:+ sep +:+ lead). simpl. rewrite IH.
    destruct (l ++ [x]) eqn:E; [by destruct l|].
    by rewrite !append_assoc.
Qed.

Lemma API_CONFIG_groq env :
  API_CONFIG env !! "groq"
  = Some {| url := "https://api.groq.com/openai/v1/chat/completions";
            key := GROQ_API_KEY env;
            model := "llama3-70b-8192" |}.
Proof.
  unfold API_CONFIG.
  rewrite lookup_insert_ne by done. rewrite lookup_insert_ne by done.
  by rewrite lookup_insert_eq.
Qed.

Lemma join_concat sep (l : list string) : join sep l = String.concat sep l.
Proof.
  induction l as [|x l IH]; [done|].
  destruct l as [|y l]; [done|].
  change (x +:+ sep +:+ join sep (y :: l)
          = x +:+ sep +:+ String.concat sep (y :: l)).
  by rewrite IH.
Qed.

Lemma lower_length (s : string) : String.length (lower s) = String.length s.
Proof. induction s as [|c s IH]; simpl; [done | by rewrite IH]. Qed.

Lemma lower_get (s : string) i c :
  String.get i s = Some c → String.get i (lower s) = Some (lower_char c).
Proof.
  revert i. induction s as [|a s IH]; intros i H; [done|].
  destruct i as [|i]; simpl in *; [by inversion H | by apply IH].
Qed.

Lemma lower_char_codes (c : ascii) :
  let n := nat_of_ascii c in
  (((65 ≤ n ≤ 90) ∨ (192 ≤ n ≤ 222 ∧ n ≠ 215))
   ∧ nat_of_ascii (lower_char c) = n + 32)%nat
  ∨ (¬ ((65 ≤ n ≤ 90) ∨ (192 ≤ n ≤ 222 ∧ n ≠ 215))%nat
     ∧ lower_char c = c).
Proof.
  cbv zeta. unfold lower_char.
  destruct (Nat.leb_spec 65 (nat_of_ascii c));
    destruct (Nat.leb_spec (nat_of_ascii c) 90);
    destruct (Nat.leb_spec 192 (nat_of_ascii c));
    destruct (Nat.leb_spec (nat_of_ascii c) 222);
    destruct (Nat.eqb_spec (nat_of_ascii c) 215);
    cbn [andb orb negb];
    first [ right; split; [lia | reflexivity]
          | left; split; [lia | apply nat_ascii_embedding; lia] ].
Qed.

(** C10. In the symptom flow every non-empty message, the terminator
    ["done"] included, is put in lower case and appended to the symptoms of
    the request before the threshold is tested. With [x] the message in
    lower case (same length; a letter A to Z or U+00C0 to U+00DE other than
    U+00D7 moved up by 32, any other character kept): when the list with [x]
    has fewer than three items and [x] is not ["done"], nothing is sent and
    the reply asks for more; otherwise one request goes to the triage
    provider, and its prompt embeds the items of the list with [x], joined
    by a comma and a space, so that [x] is the last item before the closing
    text. *)
Theorem triage_prompt_includes_trigger env data w api_key :
  let m := message_of data in
  chat_state_of data = "symptom" →
  m ≠ "" →
  GROQ_API_KEY env = Some api_key → api_key ≠ "" →
  ∃ x,
    x = lower m
    ∧ String.length x = String.length m
    ∧ (∀ i c, String.get i m = Some c →
         ∃ c', String.get i x = Some c'
               ∧ ((((65 ≤ nat_of_ascii c ≤ 90)
                    ∨ (192 ≤ nat_of_ascii c ≤ 222 ∧ nat_of_ascii c ≠ 215))
                   ∧ nat_of_ascii c' = nat_of_ascii c + 32)%nat
                  ∨ (¬ ((65 ≤ nat_of_ascii c ≤ 90)
                        ∨ (192 ≤ nat_of_ascii c ≤ 222
                           ∧ nat_of_ascii c ≠ 215))%nat
                     ∧ c' = c)))
    ∧ ((length (symptoms_of data ++ [x]) < 3)%nat ∧ x ≠ "done" →
       posted (snd (chat env data w)) = posted w
       ∧ response (fst (chat env data w))
         = "Please share another symptom or type 'done'.")
    ∧ ((3 ≤ length (symptoms_of data ++ [x]))%nat ∨ x = "done" →
       ∃ r lead,
         posted (snd (chat env data w)) = posted w ++ [r]
         ∧ messages (json_body r)
           = (history (found (user_id_of data) w) ++ [user_message m])
             ++ [user_message
                   (symptom_intro
                    +:+ String.concat ", " (symptoms_of data ++ [x])
                    +:+ symptom_outro)]
         ∧ symptom_intro +:+ String.concat ", " (symptoms_of data ++ [x])
           +:+ symptom_outro
           = lead +:+ x +:+ symptom_outro).
Proof.
  intros m Hc Hm Hk Hne. exists (lower m).
  split; [done|]. split; [apply lower_length|]. split.
  { intros i c Hget. exists (lower_char c).
    split; [by apply lower_get | apply lower_char_codes]. }
  split.
  { intros [Hlen Hd].
    by rewrite (chat_symptom_followup_run env data w Hc Hm Hlen Hd). }
  intros Hthr.
  destruct (join_snoc ", " (symptoms_of data) (lower m)) as [lead Hlead].
  pose proof (sent_configured env "groq" _ api_key
    (symptom_prompt (symptoms_of data ++ [lower m]))
    (history (found (user_id_of data) w) ++ [user_message m])
    (API_CONFIG_groq env) Hk Hne) as Hsent.
  eexists _, (symptom_intro +:+ lead).
  rewrite (chat_symptom_triage_run env data w Hc Hm Hthr). cbv zeta.
  fold m. rewrite <- !join_concat. split; [|split].
  - destruct (outcome env _ "groq" _ _); cbn [snd posted]; by rewrite Hsent.
  - done.
  - by rewrite Hlead, !append_assoc.
Qed.

(** C1, where the code departs from it. The request of the claim, the
    message ["fever"] in state ["symptom"] with no symptom collected, and
    then ["cough"] with ["fever"] collected (count 2): each is answered with
    the prompt for more and makes no provider call, but the returned and the
    stored state are ["initial"], not ["symptom"], and the symptom list is
    emptied. *)
Theorem symptom_followup_returns_to_initial env :
  let r1 := chat env (Scenario.request "fever" "symptom" []) no_world in
  let r2 := chat env (Scenario.request "cough" "symptom" ["fever"]) (snd r1) in
  let prompt_for_more :=
    {| response := "Please share another symptom or type 'done'.";
       out_chat_state := "initial";
       out_symptoms := [];
       model_used := Null |} in
  fst r1 = prompt_for_more
  ∧ fst r2 = prompt_for_more
  ∧ chat_state (stored "u1" r1) = "initial"
  ∧ symptoms (stored "u1" r1) = []
  ∧ chat_state (stored "u1" r2) = "initial"
  ∧ symptoms (stored "u1" r2) = []
  ∧ posted (snd r2) = [].
Proof.
  cbv zeta.
  rewrite (chat_symptom_followup_run env (Scenario.request "fever" "symptom" []));
    [|reflexivity|discriminate|vm_compute; lia|discriminate].
  cbn [fst snd].
  rewrite (chat_symptom_followup_run env
             (Scenario.request "cough" "symptom" ["fever"]));
    [|reflexivity|discriminate|vm_compute; lia|discriminate].
  cbn [fst snd]. unfold stored. cbn [snd].
  rewrite with_session_twice, !found_with_session. done.
Qed.

(** ** The statements on concrete runs *)

Import Scenario.

(** C2, counterexample. A user without a session sends ["hi"] in the state
    ["bogus"]: the reply is the invalid-state text, yet the stored history is
    neither the one before the request nor that one with the user entry
    alone (an assistant entry follows it), and the stored state is
    ["bogus"], outside the four known states. *)
Lemma invalid_state_counterexample :
  let data := request "hi" "bogus" [] in
  let r := chat unconfigured data no_world in
  (chat_state_of data ∉ states)
  ∧ response (fst r) = "Invalid state. Please start over."
  ∧ history (stored "u1" r) ≠ history (found "u1" no_world)
  ∧ history (stored "u1" r)
    ≠ history (found "u1" no_world) ++ [user_message "hi"]
  ∧ history (stored "u1" r)
    = [user_message "hi";
       assistant_message "Invalid state. Please start over."]
  ∧ chat_state (stored "u1" r) = "bogus"
  ∧ (chat_state (stored "u1" r) ∉ states).
Proof.
  cbv zeta. repeat split;
    try (apply (bool_decide_unpack _); vm_compute; exact I);
    vm_compute; (reflexivity || discriminate).
Qed.

(** The amended C2 on the run of the counterexample. *)
Lemma chat_invalid_state_witness :
  let data := request "hi" "bogus" [] in
  message_of data ≠ ""
  ∧ (chat_state_of data ∉ states)
  ∧ chat unconfigured data no_world
    = ({| response := "Invalid state. Please start over.";
          out_chat_state := "bogus";
          out_symptoms := [];
          model_used := Null |},
       with_session "u1"
         {| history := [user_message "hi";
                        assistant_message "Invalid state. Please start over."];
            chat_state := "bogus";
            symptoms := [] |} no_world).
Proof.
  cbv zeta.
  assert (message_of (request "hi" "bogus" []) ≠ "") as Hm
    by (vm_compute; discriminate).
  assert (chat_state_of (request "hi" "bogus" []) ∉ states) as Hc
    by (apply (bool_decide_unpack _); vm_compute; exact I).
  split; [exact Hm|]. split; [exact Hc|].
  exact (chat_invalid_state unconfigured (request "hi" "bogus" []) no_world
           Hm Hc).
Defined.

(** C3 on a run: the provider of the doctor flow answers 500. *)
Lemma doctor_failure_reply_witness :
  let data := request "I have a headache" "doctor" [] in
  outcome failing [] "anthropic" (doctor_prompt "I have a headache")
    [user_message "I have a headache"] = inl (HTTPError 500)
  ∧ fst (chat failing data no_world)
    = {| response := "Sorry, an error occurred. Please try again.";
         out_chat_state := "initial";
         out_symptoms := [];
         model_used := Null |}
  ∧ history (stored "u1" (chat failing data no_world))
    = [user_message "I have a headache"].
Proof.
  cbv zeta.
  assert (outcome failing [] "anthropic" (doctor_prompt "I have a headache")
            [user_message "I have a headache"] = inl (HTTPError 500)) as He
    by (vm_compute; reflexivity).
  split; [exact He|].
  exact (doctor_failure_reply failing
           (request "I have a headache" "doctor" []) no_world (HTTPError 500)
           eq_refl ltac:(vm_compute; discriminate) He).
Defined.

(** C4 on a run: the triage provider answers 500 to the turn that ends the
    list; the store keeps ["symptom"] and the list with ["done"]. *)
Lemma failed_turn_keeps_store_witness :
  let data := request "Done" "symptom" ["fever"] in
  outcome failing [] "groq" (symptom_prompt ["fever"; "done"])
    [user_message "Done"] = inl (HTTPError 500)
  ∧ chat_sessions (snd (chat failing data no_world)) !! "u1"
    = Some {| history := [user_message "Done"];
              chat_state := "symptom";
              symptoms := ["fever"; "done"] |}
  ∧ out_chat_state (fst (chat failing data no_world)) = "initial"
  ∧ out_symptoms (fst (chat failing data no_world)) = []
  ∧ chat_state (stored "u1" (chat failing data no_world))
    ≠ out_chat_state (fst (chat failing data no_world)).
Proof.
  cbv zeta.
  assert (outcome failing [] "groq" (symptom_prompt ["fever"; "done"])
            [user_message "Done"] = inl (HTTPError 500)) as He
    by (vm_compute; reflexivity).
  split; [exact He|].
  exact (failed_turn_keeps_store failing (request "Done" "symptom" ["fever"])
           no_world (HTTPError 500) ltac:(vm_compute; discriminate)
           (or_intror (or_intror
              (conj eq_refl (conj (or_intror eq_refl) He))))).
Defined.

(** C5 on a run: a message of spaces in state ["doctor"]. *)
Lemma empty_message_short_circuit_witness :
  let data := request "   " "doctor" ["fever"] in
  message_of data = ""
  ∧ chat_state_of data ≠ "initial"
  ∧ chat failing data no_world
    = ({| response := "Please enter a message.";
          out_chat_state := "doctor";
          out_symptoms := ["fever"];
          model_used := NoKey |}, no_world).
Proof.
  cbv zeta. split; [reflexivity|]. split; [vm_compute; discriminate|].
  exact (empty_message_short_circuit failing
           (request "   " "doctor" ["fever"]) no_world eq_refl
           ltac:(vm_compute; discriminate)).
Defined.

(** C6, counterexample. A user without a session sends ["hi"] twice in state
    ["initial"]: the two replies are the same menu, but each call appends two
    entries, the user entry and an assistant entry holding the menu, so the
    history grows by more than the one user entry per call. *)
Lemma initial_twice_counterexample :
  let data := request "hi" "initial" [] in
  let r1 := chat unconfigured data no_world in
  let r2 := chat unconfigured data (snd r1) in
  chat_sessions no_world !! "u1" = None
  ∧ response (fst r1) = response (fst r2)
  ∧ history (stored "u1" r1)
    = [user_message "hi"; assistant_message menu]
  ∧ history (stored "u1" r2)
    = [user_message "hi"; assistant_message menu;
       user_message "hi"; assistant_message menu]
  ∧ ¬ (length (history (stored "u1" r1))
       ≤ length (history (found "u1" no_world)) + 1)%nat
  ∧ ¬ (length (history (stored "u1" r2))
       ≤ length (history (stored "u1" r1)) + 1)%nat.
Proof.
  cbv zeta.
  rewrite (chat_initial_run unconfigured (request "hi" "initial" []) no_world)
    by reflexivity.
  cbn [fst snd].
  rewrite (chat_initial_run unconfigured (request "hi" "initial" [])) by reflexivity.
  unfold stored. cbn [fst snd].
  rewrite with_session_twice, !found_with_session. cbn [history].
  repeat split; try done; vm_compute; lia.
Qed.

(** The amended C6 on the run of the counterexample. *)
Lemma initial_twice_witness :
  let data := request "hi" "initial" [] in
  let r1 := chat unconfigured data no_world in
  let r2 := chat unconfigured data (snd r1) in
  let turn := [user_message "hi"; assistant_message menu] in
  chat_sessions no_world !! "u1" = None
  ∧ fst r1 = fst r2
  ∧ response (fst r1) = menu
  ∧ (said "hi" = [] ∨ said "hi" = [user_message "hi"])
  ∧ history (stored "u1" r1) = turn
  ∧ history (stored "u1" r2) = turn ++ turn
  ∧ posted (snd r2) = [].
Proof.
  cbv zeta. split; [reflexivity|].
  exact (initial_twice unconfigured (request "hi" "initial" []) no_world
           eq_refl eq_refl).
Defined.

(** C7 on a run: the credential of ["anthropic"] is not set. *)
Lemma unconfigured_provider_raises_witness :
  API_CONFIG unconfigured !! "anthropic"
  = Some {| url := "https://api.anthropic.com/v1/messages";
            key := None;
            model := "claude-3-5-sonnet-20241022" |}
  ∧ call_ai_api unconfigured "anthropic" "Hello" [] no_world
    = (inl (ValueError
              "Provider anthropic not configured or missing API key"),
       no_world).
Proof.
  assert (API_CONFIG unconfigured !! "anthropic"
          = Some {| url := "https://api.anthropic.com/v1/messages";
                    key := None;
                    model := "claude-3-5-sonnet-20241022" |}) as Hc
    by (vm_compute; reflexivity).
  split; [exact Hc|].
  exact (unconfigured_provider_raises unconfigured "anthropic" "Hello" []
           no_world
           (or_intror (ex_intro _ _ (conj Hc (or_introl eq_refl))))).
Defined.

(** C8 on a run: the request to ["anthropic"]. *)
Lemma auth_header_per_provider_witness :
  let config := {| url := "https://api.anthropic.com/v1/messages";
                   key := Some "sk-anthropic";
                   model := "claude-3-5-sonnet-20241022" |} in
  API_CONFIG answering !! "anthropic" = Some config
  ∧ ∃ r,
      posted (snd (call_ai_api answering "anthropic" "Hello" [] no_world))
      = posted no_world ++ [r]
      ∧ ("anthropic" = "anthropic" →
         headers r !! "x-api-key" = Some "sk-anthropic"
         ∧ headers r !! "Authorization" = None)
      ∧ ("anthropic" = "openai" ∨ "anthropic" = "groq" →
         headers r !! "Authorization" = Some ("Bearer " +:+ "sk-anthropic")
         ∧ headers r !! "x-api-key" = None).
Proof.
  cbv zeta.
  assert (API_CONFIG answering !! "anthropic"
          = Some {| url := "https://api.anthropic.com/v1/messages";
                    key := Some "sk-anthropic";
                    model := "claude-3-5-sonnet-20241022" |}) as Hc
    by (vm_compute; reflexivity).
  split; [exact Hc|].
  exact (auth_header_per_provider answering "anthropic" _ "sk-anthropic"
           "Hello" [] no_world Hc eq_refl ltac:(discriminate)).
Defined.

(** C9 on a run: the request to ["openai"] with one entry of context. *)
Lemma payload_messages_and_budget_witness :
  let config := {| url := "https://api.openai.com/v1/chat/completions";
                   key := Some "sk-openai";
                   model := "gpt-4o" |} in
  API_CONFIG answering !! "openai" = Some config
  ∧ ∃ r,
      posted (snd (call_ai_api answering "openai" "Hello"
                     [user_message "hi"] no_world))
      = posted no_world ++ [r]
      ∧ messages (json_body r)
        = [user_message "hi"] ++ [{| role := "user"; content := "Hello" |}]
      ∧ max_tokens (json_body r) = 500.
Proof.
  cbv zeta.
  assert (API_CONFIG answering !! "openai"
          = Some {| url := "https://api.openai.com/v1/chat/completions";
                    key := Some "sk-openai";
                    model := "gpt-4o" |}) as Hc
    by (vm_compute; reflexivity).
  split; [exact Hc|].
  exact (payload_messages_and_budget answering "openai" _ "sk-openai"
           "Hello" [user_message "hi"] no_world Hc eq_refl
           ltac:(discriminate)).
Defined.

(** C10 on a run: ["dONE"] after one symptom. The message counts as
    ["done"], and the prompt sent lists ["fever, done"]. *)
Lemma triage_prompt_includes_trigger_witness :
  let data := request "dONE" "symptom" ["fever"] in
  let lf := String "010"%char "" in
  GROQ_API_KEY failing = Some "sk-groq"
  ∧ (∃ r,
       posted (snd (chat failing data no_world)) = [r]
       ∧ last (messages (json_body r))
         = Some {| role := "user";
                   content :=
                     lf +:+ "        You are a medical assistant analyzing symptoms for a patient in rural Kenya. The patient has reported: fever, done. "
                     +:+ lf +:+ "        Provide a concise possible diagnosis (e.g., cold, flu, malaria) and recommend consulting a doctor. "
                     +:+ lf +:+ "        Avoid definitive diagnoses; emphasize professional medical advice."
                     +:+ lf +:+ "    " |})
  ∧ ∃ x,
      x = lower "dONE"
      ∧ String.length x = String.length "dONE"
      ∧ (∀ i c, String.get i "dONE" = Some c →
           ∃ c', String.get i x = Some c'
                 ∧ ((((65 ≤ nat_of_ascii c ≤ 90)
                      ∨ (192 ≤ nat_of_ascii c ≤ 222 ∧ nat_of_ascii c ≠ 215))
                     ∧ nat_of_ascii c' = nat_of_ascii c + 32)%nat
                    ∨ (¬ ((65 ≤ nat_of_ascii c ≤ 90)
                          ∨ (192 ≤ nat_of_ascii c ≤ 222
                             ∧ nat_of_ascii c ≠ 215))%nat
                       ∧ c' = c)))
      ∧ ((length (["fever"] ++ [x]) < 3)%nat ∧ x ≠ "done" →
         posted (snd (chat failing data no_world)) = posted no_world
         ∧ response (fst (chat failing data no_world))
           = "Please share another symptom or type 'done'.")
      ∧ ((3 ≤ length (["fever"] ++ [x]))%nat ∨ x = "done" →
         ∃ r lead,
           posted (snd (chat failing data no_world)) = posted no_world ++ [r]
           ∧ messages (json_body r)
             = (history (found "u1" no_world) ++ [user_message "dONE"])
               ++ [user_message
                     (symptom_intro
                      +:+ String.concat ", " (["fever"] ++ [x])
                      +:+ symptom_outro)]
           ∧ symptom_intro +:+ String.concat ", " (["fever"] ++ [x])
             +:+ symptom_outro
             = lead +:+ x +:+ symptom_outro).
Proof.
  cbv zeta. split; [reflexivity|]. split.
  { eexists. split; vm_compute; reflexivity. }
  exact (triage_prompt_includes_trigger failing
           (request "dONE" "symptom" ["fever"]) no_world "sk-groq"
           eq_refl ltac:(vm_compute; discriminate) eq_refl
           ltac:(discriminate)).
Defined.

(** [strip] and [lower] off the ASCII range: the no-break space is white
    space, and the capital E with grave (U+00C8) has a lower case. *)
Example strip_lower_latin1_sample :
  strip (String "160"%char (String "133"%char "")) = ""
  ∧ lower (String "070"%char (String "073"%char (String "200"%char "VRE")))
    = String "102"%char (String "105"%char (String "232"%char "vre"))
  ∧ lower (String "215"%char "dONE") = String "215"%char "done"
  ∧ join ", " ["fever"; "cough"; "done"] = "fever, cough, done".
Proof. repeat split. Qed.

(** ** Runs of the conversation of the specification *)

(** With ["fever"] and ["cough"] carried by the request, the third message
    ["headache"] reaches the triage provider; on its answer the symptoms are
    emptied and the state is ["initial"]. *)
Example third_symptom_calls_provider :
  let r := chat answering (request "headache" "symptom" ["fever"; "cough"])
             no_world in
  length (posted (snd r)) = 1%nat
  ∧ out_chat_state (fst r) = "initial"
  ∧ out_symptoms (fst r) = []
  ∧ model_used (fst r) = Label "Llama 3.1 (Groq)"
  ∧ symptoms (stored "u1" r) = []
  ∧ chat_state (stored "u1" r) = "initial".
Proof. vm_compute. repeat split. Qed.

(** A client that sends back the symptoms of the previous reply never
    reaches the provider: the third message is again a first symptom. *)
Example echoed_symptoms_never_reach_provider :
  let r1 := chat answering (request "fever" "symptom" []) no_world in
  let r2 := chat answering
              (request "cough" "symptom" (out_symptoms (fst r1))) (snd r1) in
  let r3 := chat answering
              (request "headache" "symptom" (out_symptoms (fst r2))) (snd r2) in
  response (fst r3) = "Please share another symptom or type 'done'."
  ∧ posted (snd r3) = [].
Proof. vm_compute. repeat split. Qed.

(** [strip] and [lower] on the texts used above. *)
Example strip_lower_sample :
  strip "   " = "" ∧ strip "  Done " = "Done" ∧ lower "Done" = "done".
Proof. repeat split. Qed.

(** ** Every request: what a run of the handler can do *)

Lemma chat_short_circuit_run env data w :
  message_of data = "" →
  chat_state_of data ≠ "initial" →
  chat env data w
  = ({| response := please_enter;
        out_chat_state := chat_state_of data;
        out_symptoms := symptoms_of data;
        model_used := NoKey |}, w).
Proof.
  intros Hm Hc. unfold chat.
  fold (message_of data) (chat_state_of data) (user_id_of data)
    (symptoms_of data).
  by rewrite Hm, (bool_decide_eq_false_2 _ Hc).
Qed.

Lemma chat_invalid_run env data w :
  message_of data ≠ "" →
  chat_state_of data ∉ states →
  chat env data w
  = ({| response := invalid_state;
        out_chat_state := chat_state_of data;
        out_symptoms := symptoms_of data;
        model_used := Null |},
     with_session (user_id_of data)
       {| history := history (found (user_id_of data) w)
                     ++ [user_message (message_of data);
                         assistant_message invalid_state];
          chat_state := chat_state_of data;
          symptoms := symptoms_of data |} w).
Proof.
  intros Hm Hc. rewrite chat_not_short_circuit by done.
  rewrite open_session_eq, (said_nonempty _ Hm). unfold with_session.
  rewrite try_invalid by done. by rewrite <- app_assoc.
Qed.

Lemma not_in_states (cs : string) :
  cs ≠ "initial" → cs ≠ "symptom" → cs ≠ "doctor" → cs ≠ "patient" →
  cs ∉ states.
Proof.
  intros H1 H2 H3 H4. unfold states. rewrite !not_elem_of_cons.
  repeat split; try done. apply not_elem_of_nil.
Qed.

Lemma sent_length env provider prompt ctx :
  (length (sent env provider prompt ctx) ≤ 1)%nat.
Proof.
  destruct (API_CONFIG env !! provider) as [cfg|] eqn:Hc.
  - destruct (key cfg) as [k|] eqn:Hk.
    + destruct (decide (k = "")) as [->|Hne].
      * unfold sent.
        rewrite call_unconfigured by (right; exists cfg; auto). simpl. lia.
      * by rewrite (sent_configured _ _ _ _ _ _ Hc Hk Hne).
    + unfold sent.
      rewrite call_unconfigured by (right; exists cfg; auto). simpl. lia.
  - unfold sent. rewrite call_unconfigured by auto. simpl. lia.
Qed.

(** A reply with a model label, or with one of the fixed texts of the
    router, is not the apology. *)
Ltac not_apology :=
  let Hx := fresh in
  intros Hx;
  first [ apply (f_equal model_used) in Hx; discriminate Hx
        | apply (f_equal response) in Hx; vm_compute in Hx; discriminate Hx ].

(** The state a processed request leaves and the reply it gets, in one
    shape for all branches: the session of the request gains the user entry
    and then either nothing, the reply being the apology, or the assistant
    entry of the reply, state and symptoms of the reply being the stored
    ones. *)
Lemma chat_processed_shape env data w :
  processed data →
  ∃ tail st sy rs,
    snd (chat env data w)
    = {| chat_sessions :=
           <[user_id_of data :=
               {| history := history (found (user_id_of data) w)
                             ++ said (message_of data) ++ tail;
                  chat_state := st;
                  symptoms := sy |}]> (chat_sessions w);
         posted := posted w ++ rs |}
    ∧ (length rs ≤ 1)%nat
    ∧ (chat_state_of data ∉ ["symptom"; "doctor"; "patient"] → rs = [])
    ∧ ((tail = [] ∧ fst (chat env data w) = apology_reply
        ∧ st = chat_state_of data)
       ∨ (tail = [assistant_message (response (fst (chat env data w)))]
          ∧ out_chat_state (fst (chat env data w)) = st
          ∧ out_symptoms (fst (chat env data w)) = sy
          ∧ fst (chat env data w) ≠ apology_reply
          ∧ model_used (fst (chat env data w)) ≠ NoKey)).
Proof.
  intros Hp.
  destruct (decide (chat_state_of data = "initial")) as [Hi|Hi].
  { rewrite (chat_initial_run env data w Hi). unfold with_session.
    cbn [fst snd]. eexists [_], _, _, []. rewrite app_nil_r, <- app_assoc.
    split; [done|]. split; [simpl; lia|]. split; [done|]. right.
    repeat split; try done; not_apology. }
  destruct Hp as [Hm|Hp]; [|done].
  assert (∀ sn, "symptom" = chat_state_of data ∨ "doctor" = chat_state_of data
                ∨ "patient" = chat_state_of data →
                chat_state_of data ∉ ["symptom"; "doctor"; "patient"] →
                sn = @nil HttpRequest) as Hnot.
  { intros sn Hin Hout. exfalso. apply Hout.
    rewrite !elem_of_cons. destruct Hin as [<-|[<-|<-]]; auto. }
  destruct (decide (chat_state_of data = "symptom")) as [Hs|Hs].
  { destruct (decide ((length (symptoms_of data ++ [lower (message_of data)])
                       < 3)%nat ∧ lower (message_of data) ≠ "done"))
      as [[Hl Hd]|Hthr].
    - rewrite (chat_symptom_followup_run env data w Hs Hm Hl Hd).
      unfold with_session. cbn [fst snd].
      eexists [_], _, _, []. rewrite app_nil_r, (said_nonempty _ Hm).
      split; [done|]. split; [simpl; lia|]. split; [done|]. right.
      repeat split; try done; not_apology.
    - assert ((3 ≤ length (symptoms_of data ++ [lower (message_of data)]))%nat
              ∨ lower (message_of data) = "done") as Ht.
      { destruct (decide (lower (message_of data) = "done")); [by right|].
        left. apply Nat.nlt_ge. intros Hl. by apply Hthr. }
      rewrite (chat_symptom_triage_run env data w Hs Hm Ht). cbv zeta.
      rewrite (said_nonempty _ Hm).
      destruct (outcome env (posted w) "groq" _ _) as [e|j]; cbn [fst snd].
      + eexists [], _, _, _. rewrite app_nil_r.
        split; [done|]. split; [apply sent_length|].
        split; [apply Hnot; auto|]. left. by rewrite Hs.
      + eexists [_], _, _, _. rewrite <- app_assoc.
        split; [done|]. split; [apply sent_length|].
        split; [apply Hnot; auto|]. right. repeat split; try done; not_apology. }
  destruct (decide (chat_state_of data = "doctor")) as [Hd|Hd].
  { rewrite (chat_doctor_run env data w Hd Hm). cbv zeta.
    rewrite (said_nonempty _ Hm).
    destruct (outcome env (posted w) "anthropic" _ _) as [e|j]; cbn [fst snd].
    + eexists [], _, _, _. rewrite app_nil_r.
      split; [done|]. split; [apply sent_length|].
      split; [apply Hnot; auto|]. left. by rewrite Hd.
    + eexists [_], _, _, _. rewrite <- app_assoc.
      split; [done|]. split; [apply sent_length|].
      split; [apply Hnot; auto|]. right. repeat split; try done; not_apology. }
  destruct (decide (chat_state_of data = "patient")) as [Hpt|Hpt].
  { rewrite (chat_patient_run env data w Hpt Hm). cbv zeta.
    rewrite (said_nonempty _ Hm).
    destruct (outcome env (posted w) "openai" _ _) as [e|j]; cbn [fst snd].
    + eexists [], _, _, _. rewrite app_nil_r.
      split; [done|]. split; [apply sent_length|].
      split; [apply Hnot; auto|]. left. by rewrite Hpt.
    + eexists [_], _, _, _. rewrite <- app_assoc.
      split; [done|]. split; [apply sent_length|].
      split; [apply Hnot; auto|]. right. repeat split; try done; not_apology. }
  rewrite (chat_invalid_run env data w Hm) by by apply not_in_states.
  unfold with_session. cbn [fst snd].
  eexists [_], _, _, []. rewrite app_nil_r, (said_nonempty _ Hm).
  split; [done|]. split; [simpl; lia|]. split; [done|]. right.
  repeat split; try done; not_apology.
Qed.

Lemma processed_dec (data : ChatRequest) :
  processed data
  ∨ (message_of data = "" ∧ chat_state_of data ≠ "initial").
Proof.
  unfold processed.
  destruct (decide (message_of data = "")); [|auto].
  destruct (decide (chat_state_of data = "initial")); auto.
Qed.

Lemma found_agrees uid (w w' : World) :
  chat_sessions w' !! uid = chat_sessions w !! uid → found uid w' = found uid w.
Proof. intros H. unfold found. by rewrite H. Qed.

(** The reply, the session the request leaves for its user and the requests
    it sends are the same on two process states that hold the same session
    for that user and the same trace, whatever else they hold. *)
Lemma chat_local env data w w' :
  chat_sessions w' !! user_id_of data = chat_sessions w !! user_id_of data →
  posted w' = posted w →
  fst (chat env data w') = fst (chat env data w)
  ∧ chat_sessions (snd (chat env data w')) !! user_id_of data
    = chat_sessions (snd (chat env data w)) !! user_id_of data
  ∧ posted (snd (chat env data w')) = posted (snd (chat env data w)).
Proof.
  intros Hl Hpo. pose proof (found_agrees _ _ _ Hl) as Hf.
  destruct (processed_dec data) as [Hp|[Hm Hc]];
    [|by rewrite !chat_short_circuit_run].
  destruct (decide (chat_state_of data = "initial")) as [Hi|Hi].
  { rewrite !(chat_initial_run env data _ Hi), Hf. unfold with_session.
    cbn [fst snd chat_sessions posted]. by rewrite !lookup_insert_eq. }
  destruct Hp as [Hm|Hp]; [|done].
  destruct (decide (chat_state_of data = "symptom")) as [Hs|Hs].
  { destruct (decide ((length (symptoms_of data ++ [lower (message_of data)])
                       < 3)%nat ∧ lower (message_of data) ≠ "done"))
      as [[Hlen Hd]|Hthr].
    - rewrite !(chat_symptom_followup_run env data _ Hs Hm Hlen Hd), Hf.
      unfold with_session. cbn [fst snd chat_sessions posted].
      by rewrite !lookup_insert_eq.
    - assert ((3 ≤ length (symptoms_of data ++ [lower (message_of data)]))%nat
              ∨ lower (message_of data) = "done") as Ht.
      { destruct (decide (lower (message_of data) = "done")); [by right|].
        left. apply Nat.nlt_ge. intros Hlen. by apply Hthr. }
      rewrite !(chat_symptom_triage_run env data _ Hs Hm Ht). cbv zeta.
      rewrite Hf, Hpo.
      destruct (outcome env (posted w) "groq" _ _);
        cbn [fst snd chat_sessions posted]; by rewrite !lookup_insert_eq. }
  destruct (decide (chat_state_of data = "doctor")) as [Hd|Hd].
  { rewrite !(chat_doctor_run env data _ Hd Hm). cbv zeta. rewrite Hf, Hpo.
    destruct (outcome env (posted w) "anthropic" _ _);
      cbn [fst snd chat_sessions posted]; by rewrite !lookup_insert_eq. }
  destruct (decide (chat_state_of data = "patient")) as [Hpt|Hpt].
  { rewrite !(chat_patient_run env data _ Hpt Hm). cbv zeta. rewrite Hf, Hpo.
    destruct (outcome env (posted w) "openai" _ _);
      cbn [fst snd chat_sessions posted]; by rewrite !lookup_insert_eq. }
  rewrite !(chat_invalid_run env data _ Hm) by by apply not_in_states.
  rewrite Hf. unfold with_session. cbn [fst snd chat_sessions posted].
  by rewrite !lookup_insert_eq.
Qed.

(** X1. A request reads and writes the session of its own user only. The
    session of every other user, present or not, is after the request what
    it was before; and on any other process state that holds the same
    session for the user of the request and the same trace, whatever
    sessions of other users it holds, the request gets the same reply,
    leaves the same session for its user and sends the same requests. *)
Theorem other_sessions_untouched env data w w' u :
  u ≠ user_id_of data →
  chat_sessions w' !! user_id_of data = chat_sessions w !! user_id_of data →
  posted w' = posted w →
  chat_sessions (snd (chat env data w)) !! u = chat_sessions w !! u
  ∧ fst (chat env data w') = fst (chat env data w)
  ∧ chat_sessions (snd (chat env data w')) !! user_id_of data
    = chat_sessions (snd (chat env data w)) !! user_id_of data
  ∧ posted (snd (chat env data w')) = posted (snd (chat env data w)).
Proof.
  intros Hu Hl Hpo. split; [|by apply chat_local].
  destruct (processed_dec data) as [Hp|[Hm Hc]].
  - destruct (chat_processed_shape env data w Hp)
      as (tail & st & sy & rs & -> & _).
    cbn [chat_sessions]. by rewrite lookup_insert_ne.
  - by rewrite chat_short_circuit_run.
Qed.

(** X2. The history of a session only grows, and by a fixed pattern: a
    processed request appends the user entry of its message, if not empty,
    and then either the assistant entry holding the very response it
    returns, or nothing, in which case the reply is the apology. *)
Theorem history_grows_by_turn env data w :
  processed data →
  let r := chat env data w in
  let h := history (found (user_id_of data) w) ++ said (message_of data) in
  (history (stored (user_id_of data) r) = h ∧ fst r = apology_reply)
  ∨ history (stored (user_id_of data) r)
    = h ++ [assistant_message (response (fst r))].
Proof.
  intros Hp. cbv zeta.
  destruct (chat_processed_shape env data w Hp)
    as (tail & st & sy & rs & Hw & _ & _ & Hcase).
  unfold stored, found at 1 3. rewrite Hw. cbn [chat_sessions].
  rewrite lookup_insert_eq. cbn [default history].
  destruct Hcase as [(-> & Ha & _) | (-> & _)].
  - left. by rewrite app_nil_r.
  - right. by rewrite app_assoc.
Qed.

(** X3. A request hands at most one request to the transport, after those
    already sent; it hands none when its state is not one of ["symptom"],
    ["doctor"], ["patient"], and none when its message is empty. *)
Theorem at_most_one_provider_call env data w :
  ∃ rs,
    posted (snd (chat env data w)) = posted w ++ rs
    ∧ (length rs ≤ 1)%nat
    ∧ (chat_state_of data ∉ ["symptom"; "doctor"; "patient"] → rs = [])
    ∧ (message_of data = "" → rs = []).
Proof.
  destruct (processed_dec data) as [Hp|[Hm Hc]].
  - destruct (chat_processed_shape env data w Hp)
      as (tail & st & sy & rs & Hw & Hlen & Hnone & _).
    exists rs. rewrite Hw. repeat split; try done.
    intros Hm. apply Hnone. destruct Hp as [Hp|Hp]; [done|].
    rewrite Hp, !not_elem_of_cons. repeat split; try done.
    apply not_elem_of_nil.
  - exists []. rewrite chat_short_circuit_run by done.
    cbn [snd]. rewrite app_nil_r. repeat split; try done. simpl. lia.
Qed.

(** X4. The state and the symptoms of the reply to a processed request are
    read back from the store: they are the stored ones, unless the reply is
    the apology. *)
Theorem reply_reads_store_or_apologises env data w :
  processed data →
  let r := chat env data w in
  (out_chat_state (fst r) = chat_state (stored (user_id_of data) r)
   ∧ out_symptoms (fst r) = symptoms (stored (user_id_of data) r))
  ∨ fst r = apology_reply.
Proof.
  intros Hp. cbv zeta.
  destruct (chat_processed_shape env data w Hp)
    as (tail & st & sy & rs & Hw & _ & _ & Hcase).
  unfold stored, found. rewrite Hw. cbn [chat_sessions].
  rewrite lookup_insert_eq. cbn [default chat_state symptoms].
  destruct Hcase as [(_ & Ha & _) | (_ & Hs & Hy & _)]; auto.
Qed.

(** ** The validation of the message *)

(** X5. The validation reply, the one without a ["model_used"] key, is
    given exactly to the requests whose stripped message is empty in a state
    other than ["initial"]; every other request is processed and its reply
    has the key. *)
Theorem model_used_absent_iff env data w :
  model_used (fst (chat env data w)) = NoKey
  ↔ message_of data = "" ∧ chat_state_of data ≠ "initial".
Proof.
  destruct (processed_dec data) as [Hp|[Hm Hc]].
  - destruct (chat_processed_shape env data w Hp)
      as (tail & st & sy & rs & _ & _ & _ & Hcase).
    split.
    + intros HN. destruct Hcase as [(_ & Ha & _) | (_ & _ & _ & _ & Hk)];
        [by rewrite Ha in HN | done].
    + intros [Hm Hc]. by destruct Hp.
  - rewrite chat_short_circuit_run by done. done.
Qed.

(** X6. The stored state and symptoms are never read before they are
    overwritten from the request: two process states that differ only in the
    state and symptoms stored for the user of the request give the same
    reply, and, when the request is processed, the same process state. *)
Theorem stored_state_is_overwritten env data w s s' :
  history s = history s' →
  fst (chat env data (with_session (user_id_of data) s w))
  = fst (chat env data (with_session (user_id_of data) s' w))
  ∧ (processed data →
     chat env data (with_session (user_id_of data) s w)
     = chat env data (with_session (user_id_of data) s' w)).
Proof.
  intros Hh. unfold chat.
  fold (message_of data) (chat_state_of data) (user_id_of data)
    (symptoms_of data).
  destruct (negb (truthy (message_of data))
            && negb (bool_decide (chat_state_of data = "initial"))) eqn:E.
  - split; [done|]. intros [Hm|Hc].
    + apply truthy_true_iff in Hm. by rewrite Hm in E.
    + by rewrite (bool_decide_eq_true_2 _ Hc), andb_false_r in E.
  - rewrite !open_session_eq, !found_with_session, !with_session_twice, Hh.
    done.
Qed.

(** ** The three flows when the provider answers *)

(** X7. In state ["doctor"], when the dispatch returns a reply, the response
    is the text of the reply followed by the button back to the menu, the
    model label is ["Claude 3.5 Sonnet"], the state goes to ["initial"] and
    the symptoms of the request are handed back and stored unchanged; the
    history gains the user entry and the assistant entry of the response. *)
Theorem doctor_reply_on_answer env data w j :
  chat_state_of data = "doctor" →
  message_of data ≠ "" →
  outcome env (posted w) "anthropic" (doctor_prompt (message_of data))
    (history (found (user_id_of data) w) ++ [user_message (message_of data)])
  = inr j →
  let text := py_str env j +:+ "<br>" +:+ button "initial" "Back to Menu" in
  fst (chat env data w)
  = {| response := text;
       out_chat_state := "initial";
       out_symptoms := symptoms_of data;
       model_used := Label "Claude 3.5 Sonnet" |}
  ∧ chat_sessions (snd (chat env data w)) !! user_id_of data
    = Some {| history := history (found (user_id_of data) w)
                         ++ [user_message (message_of data);
                             assistant_message text];
              chat_state := "initial";
              symptoms := symptoms_of data |}.
Proof.
  intros Hc Hm Hj. rewrite (chat_doctor_run env data w Hc Hm).
  cbv zeta. rewrite Hj. cbn [fst snd chat_sessions].
  by rewrite lookup_insert_eq, <- app_assoc.
Qed.

(** X8. In state ["patient"], when the dispatch returns a reply, the
    response is the text of the reply followed by the button back to the
    menu, the model label is ["ChatGPT (GPT-4o)"], the state goes to
    ["initial"] and the symptoms of the request are handed back and stored
    unchanged; the history gains the user entry and the assistant entry of
    the response. *)
Theorem patient_reply_on_answer env data w j :
  chat_state_of data = "patient" →
  message_of data ≠ "" →
  outcome env (posted w) "openai" (patient_prompt (message_of data))
    (history (found (user_id_of data) w) ++ [user_message (message_of data)])
  = inr j →
  let text := py_str env j +:+ "<br>" +:+ button "initial" "Back to Menu" in
  fst (chat env data w)
  = {| response := text;
       out_chat_state := "initial";
       out_symptoms := symptoms_of data;
       model_used := Label "ChatGPT (GPT-4o)" |}
  ∧ chat_sessions (snd (chat env data w)) !! user_id_of data
    = Some {| history := history (found (user_id_of data) w)
                         ++ [user_message (message_of data);
                             assistant_message text];
              chat_state := "initial";
              symptoms := symptoms_of data |}.
Proof.
  intros Hc Hm Hj. rewrite (chat_patient_run env data w Hc Hm).
  cbv zeta. rewrite Hj. cbn [fst snd chat_sessions].
  by rewrite lookup_insert_eq, <- app_assoc.
Qed.

(** X9. In state ["patient"], when the dispatch raises, the reply is the
    apology with state ["initial"], no symptoms and a null model label; the
    store keeps the state ["patient"] and the symptoms of the request, and
    its history ends with the user entry of the request. *)
Theorem patient_failure_reply env data w e :
  chat_state_of data = "patient" →
  message_of data ≠ "" →
  outcome env (posted w) "openai" (patient_prompt (message_of data))
    (history (found (user_id_of data) w) ++ [user_message (message_of data)])
  = inl e →
  fst (chat env data w) = apology_reply
  ∧ chat_sessions (snd (chat env data w)) !! user_id_of data
    = Some {| history := history (found (user_id_of data) w)
                         ++ [user_message (message_of data)];
              chat_state := "patient";
              symptoms := symptoms_of data |}.
Proof.
  intros Hc Hm He. rewrite (chat_patient_run env data w Hc Hm).
  cbv zeta. rewrite He. cbn [fst snd chat_sessions].
  by rewrite lookup_insert_eq.
Qed.

(** X10. In state ["symptom"], when the turn reaches the triage provider and
    the dispatch returns a reply, the response is the text of the reply
    followed by the button to a doctor, the model label is
    ["Llama 3.1 (Groq)"], and the reply and the store both have the state
    ["initial"] and no symptoms; the history gains the user entry and the
    assistant entry of the response. *)
Theorem triage_reply_on_answer env data w j :
  let m := message_of data in
  let listed := symptoms_of data ++ [lower m] in
  chat_state_of data = "symptom" →
  m ≠ "" →
  (3 ≤ length listed)%nat ∨ lower m = "done" →
  outcome env (posted w) "groq" (symptom_prompt listed)
    (history (found (user_id_of data) w) ++ [user_message m])
  = inr j →
  let text := py_str env j +:+ "<br>"
              +:+ button "doctor" "Connect with a Doctor" in
  fst (chat env data w)
  = {| response := text;
       out_chat_state := "initial";
       out_symptoms := [];
       model_used := Label "Llama 3.1 (Groq)" |}
  ∧ chat_sessions (snd (chat env data w)) !! user_id_of data
    = Some {| history := history (found (user_id_of data) w)
                         ++ [user_message m; assistant_message text];
              chat_state := "initial";
              symptoms := [] |}.
Proof.
  intros m listed Hc Hm Hthr Hj.
  rewrite (chat_symptom_triage_run env data w Hc Hm Hthr).
  cbv zeta. fold m listed. rewrite Hj. cbn [fst snd chat_sessions].
  by rewrite lookup_insert_eq, <- app_assoc.
Qed.

(** ** Provider dispatch: reading the reply *)

Lemma status_passes (r : HttpResponse) w :
  (status_code r < 400 ∨ 600 ≤ status_code r)%nat →
  raise_for_status r w = (inr tt, w).
Proof.
  intros H. unfold raise_for_status.
  assert (((400 <=? status_code r) && (status_code r <? 600))%nat = false)
    as ->; [|done].
  apply andb_false_iff. destruct H as [H|H].
  - left. by apply Nat.leb_gt.
  - right. by apply Nat.ltb_ge.
Qed.

Lemma status_raises (r : HttpResponse) w :
  (400 ≤ status_code r < 600)%nat →
  raise_for_status r w = (inl (HTTPError (status_code r)), w).
Proof.
  intros [H1 H2]. unfold raise_for_status.
  apply Nat.leb_le in H1. apply Nat.ltb_lt in H2. by rewrite H1, H2.
Qed.

Lemma getitem_str_found fields k v w :
  assoc k fields = Some v → getitem_str (JObj fields) k w = (inr v, w).
Proof. intros H. unfold getitem_str. by rewrite H. Qed.

Lemma call_configured_run env provider config api_key prompt context w :
  API_CONFIG env !! provider = Some config →
  key config = Some api_key → api_key ≠ "" →
  call_ai_api env provider prompt context w
  = match requests_post env (posted w)
            (build_request provider config api_key prompt context) with
    | inl e =>
        (inl e,
         {| chat_sessions := chat_sessions w;
            posted := posted w
                      ++ [build_request provider config api_key prompt
                            context] |})
    | inr response =>
        read_reply provider response
          {| chat_sessions := chat_sessions w;
             posted := posted w
                       ++ [build_request provider config api_key prompt
                             context] |}
    end.
Proof.
  intros Hc Hk Hne. unfold call_ai_api. rewrite Hc, Hk.
  destruct api_key as [|a k]; [done|].
  unfold mbind, eff_bind, bind, post.
  by destruct (requests_post env _ _).
Qed.

(** X11. A configured call to ["anthropic"] whose transport answers with a
    status outside 400..599 and a JSON object whose ["content"] is a list
    starting with an object that has a ["text"] returns that ["text"]; the
    other items of the list and the other keys are not looked at. *)
Theorem anthropic_reply_text env config api_key prompt context w
    response fields item rest v :
  let request := build_request "anthropic" config api_key prompt context in
  API_CONFIG env !! "anthropic" = Some config →
  key config = Some api_key → api_key ≠ "" →
  requests_post env (posted w) request = inr response →
  (status_code response < 400 ∨ 600 ≤ status_code response)%nat →
  json response = Some (JObj fields) →
  assoc "content" fields = Some (JArr (JObj item :: rest)) →
  assoc "text" item = Some v →
  call_ai_api env "anthropic" prompt context w
  = (inr v, {| chat_sessions := chat_sessions w;
               posted := posted w ++ [request] |}).
Proof.
  intros request Hc Hk Hne Hpost Hst Hj Hcontent Htext.
  rewrite (call_configured_run _ _ _ _ _ _ _ Hc Hk Hne). fold request.
  rewrite Hpost. unfold read_reply, mbind, eff_bind, bind.
  rewrite status_passes by done. unfold response_json. rewrite Hj.
  cbn [mret eff_ret ret]. rewrite decide_True by done.
  rewrite (getitem_str_found _ _ _ _ Hcontent). cbn [getitem_0 ret].
  by rewrite (getitem_str_found _ _ _ _ Htext).
Qed.

(** X12. A configured call to a provider other than ["anthropic"] whose
    transport answers with a status outside 400..599 and a JSON object whose
    ["choices"] is a list starting with an object whose ["message"] is an
    object with a ["content"] returns that ["content"]. *)
Theorem choices_reply_text env provider config api_key prompt context w
    response fields choice rest message v :
  let request := build_request provider config api_key prompt context in
  provider ≠ "anthropic" →
  API_CONFIG env !! provider = Some config →
  key config = Some api_key → api_key ≠ "" →
  requests_post env (posted w) request = inr response →
  (status_code response < 400 ∨ 600 ≤ status_code response)%nat →
  json response = Some (JObj fields) →
  assoc "choices" fields = Some (JArr (JObj choice :: rest)) →
  assoc "message" choice = Some (JObj message) →
  assoc "content" message = Some v →
  call_ai_api env provider prompt context w
  = (inr v, {| chat_sessions := chat_sessions w;
               posted := posted w ++ [request] |}).
Proof.
  intros request Hp Hc Hk Hne Hpost Hst Hj Hchoices Hmsg Hcontent.
  rewrite (call_configured_run _ _ _ _ _ _ _ Hc Hk Hne). fold request.
  rewrite Hpost. unfold read_reply, mbind, eff_bind, bind.
  rewrite status_passes by done. unfold response_json. rewrite Hj.
  cbn [mret eff_ret ret]. rewrite decide_False by done.
  rewrite (getitem_str_found _ _ _ _ Hchoices). cbn [getitem_0 ret].
  rewrite (getitem_str_found _ _ _ _ Hmsg).
  by rewrite (getitem_str_found _ _ _ _ Hcontent).
Qed.

(** X13. A configured call whose transport answers with a status from 400 to
    599 raises the HTTP error of that status, whatever the body holds: the
    status is tested before the body is decoded. *)
Theorem error_status_raises env provider config api_key prompt context w
    response :
  let request := build_request provider config api_key prompt context in
  API_CONFIG env !! provider = Some config →
  key config = Some api_key → api_key ≠ "" →
  requests_post env (posted w) request = inr response →
  (400 ≤ status_code response < 600)%nat →
  call_ai_api env provider prompt context w
  = (inl (HTTPError (status_code response)),
     {| chat_sessions := chat_sessions w;
        posted := posted w ++ [request] |}).
Proof.
  intros request Hc Hk Hne Hpost Hst.
  rewrite (call_configured_run _ _ _ _ _ _ _ Hc Hk Hne). fold request.
  rewrite Hpost. unfold read_reply, mbind, eff_bind, bind.
  by rewrite status_raises.
Qed.

(** X14. A configured call whose body is not of the shape of its provider
    raises instead of returning a text: a body that is not JSON, a JSON
    object without the first key of the provider (["content"] for
    ["anthropic"], ["choices"] for the others), and an empty list under that
    key each raise. *)
Theorem malformed_reply_raises env provider config api_key prompt context w
    response :
  let request := build_request provider config api_key prompt context in
  let first_key := if decide (provider = "anthropic")
                   then "content" else "choices" in
  API_CONFIG env !! provider = Some config →
  key config = Some api_key → api_key ≠ "" →
  requests_post env (posted w) request = inr response →
  (status_code response < 400 ∨ 600 ≤ status_code response)%nat →
  json response = None
  ∨ (∃ fields, json response = Some (JObj fields)
               ∧ (assoc first_key fields = None
                  ∨ assoc first_key fields = Some (JArr []))) →
  ∃ e, fst (call_ai_api env provider prompt context w) = inl e
       ∧ e ∈ [JSONDecodeError; KeyError; IndexError].
Proof.
  intros request first_key Hc Hk Hne Hpost Hst Hbad.
  rewrite (call_configured_run _ _ _ _ _ _ _ Hc Hk Hne). fold request.
  rewrite Hpost. unfold read_reply, mbind, eff_bind, bind.
  rewrite status_passes by done. unfold response_json.
  destruct Hbad as [-> | (fields & -> & Hf)].
  - exists JSONDecodeError. split; [done|]. rewrite !elem_of_cons. auto.
  - cbn [mret eff_ret ret]. unfold first_key in Hf.
    destruct (decide (provider = "anthropic")); unfold getitem_str;
      destruct Hf as [-> | ->]; cbn [getitem_0 raise fst];
      first [ exists KeyError; split; [done|]; rewrite !elem_of_cons; auto
            | exists IndexError; split; [done|]; rewrite !elem_of_cons; auto ].
Qed.

(** X15. A transport that raises makes a configured call raise the same
    exception, after the request was handed over. *)
Theorem transport_error_propagates env provider config api_key prompt context
    w e :
  let request := build_request provider config api_key prompt context in
  API_CONFIG env !! provider = Some config →
  key config = Some api_key → api_key ≠ "" →
  requests_post env (posted w) request = inl e →
  call_ai_api env provider prompt context w
  = (inl e, {| chat_sessions := chat_sessions w;
               posted := posted w ++ [request] |}).
Proof.
  intros request Hc Hk Hne Hpost.
  rewrite (call_configured_run _ _ _ _ _ _ _ Hc Hk Hne). fold request.
  by rewrite Hpost.
Qed.

(** X16. The request of a configured call goes to the URL of the provider's
    entry with the model of that entry, and carries exactly two headers, of
    which one is the JSON content type. *)
Theorem request_target env provider config api_key prompt context w :
  API_CONFIG env !! provider = Some config →
  key config = Some api_key → api_key ≠ "" →
  ∃ r,
    posted (snd (call_ai_api env provider prompt context w)) = posted w ++ [r]
    ∧ post_url r = url config
    ∧ body_model (json_body r) = model config
    ∧ headers r !! "Content-Type" = Some "application/json"
    ∧ size (headers r) = 2%nat.
Proof.
  intros Hc Hk Hne.
  exists (build_request provider config api_key prompt context).
  rewrite (call_configured _ _ _ _ _ _ _ Hc Hk Hne).
  split; [done|]. unfold build_request, build_headers, build_body. simpl.
  destruct (decide (provider = "anthropic")); repeat split; try done.
Qed.

(** ** The request each flow sends *)

Lemma API_CONFIG_anthropic env :
  API_CONFIG env !! "anthropic"
  = Some {| url := "https://api.anthropic.com/v1/messages";
            key := ANTHROPIC_API_KEY env;
            model := "claude-3-5-sonnet-20241022" |}.
Proof.
  unfold API_CONFIG. rewrite lookup_insert_ne by done.
  by rewrite lookup_insert_eq.
Qed.

Lemma API_CONFIG_openai env :
  API_CONFIG env !! "openai"
  = Some {| url := "https://api.openai.com/v1/chat/completions";
            key := OPENAI_API_KEY env;
            model := "gpt-4o" |}.
Proof. unfold API_CONFIG. by rewrite lookup_insert_eq. Qed.

(** X17. In state ["doctor"] with the credential of ["anthropic"] set, the
    request goes to the messages endpoint of ["anthropic"] with its model,
    whatever comes back; its messages are the stored history, the user entry
    of this request, and a second user entry holding the prompt built from
    the same message. *)
Theorem doctor_request env data w api_key :
  chat_state_of data = "doctor" →
  message_of data ≠ "" →
  ANTHROPIC_API_KEY env = Some api_key → api_key ≠ "" →
  ∃ r,
    posted (snd (chat env data w)) = posted w ++ [r]
    ∧ post_url r = "https://api.anthropic.com/v1/messages"
    ∧ body_model (json_body r) = "claude-3-5-sonnet-20241022"
    ∧ messages (json_body r)
      = history (found (user_id_of data) w)
        ++ [user_message (message_of data);
            user_message (doctor_prompt (message_of data))].
Proof.
  intros Hc Hm Hk Hne.
  pose proof (sent_configured env "anthropic" _ api_key
    (doctor_prompt (message_of data))
    (history (found (user_id_of data) w) ++ [user_message (message_of data)])
    (API_CONFIG_anthropic env) Hk Hne) as Hsent.
  eexists. rewrite (chat_doctor_run env data w Hc Hm). cbv zeta.
  split; [|split; [|split]].
  - destruct (outcome env _ "anthropic" _ _); cbn [snd posted];
      by rewrite Hsent.
  - done.
  - done.
  - cbn [json_body build_request]. unfold build_body.
    rewrite decide_True by done. cbn [messages]. by rewrite <- app_assoc.
Qed.

(** X18. In state ["patient"] with the credential of ["openai"] set, the
    request goes to the chat completions endpoint of ["openai"] with its
    model, whatever comes back; its messages are the stored history, the
    user entry of this request, and a second user entry holding the prompt
    built from the same message. *)
Theorem patient_request env data w api_key :
  chat_state_of data = "patient" →
  message_of data ≠ "" →
  OPENAI_API_KEY env = Some api_key → api_key ≠ "" →
  ∃ r,
    posted (snd (chat env data w)) = posted w ++ [r]
    ∧ post_url r = "https://api.openai.com/v1/chat/completions"
    ∧ body_model (json_body r) = "gpt-4o"
    ∧ messages (json_body r)
      = history (found (user_id_of data) w)
        ++ [user_message (message_of data);
            user_message (patient_prompt (message_of data))].
Proof.
  intros Hc Hm Hk Hne.
  pose proof (sent_configured env "openai" _ api_key
    (patient_prompt (message_of data))
    (history (found (user_id_of data) w) ++ [user_message (message_of data)])
    (API_CONFIG_openai env) Hk Hne) as Hsent.
  eexists. rewrite (chat_patient_run env data w Hc Hm). cbv zeta.
  split; [|split; [|split]].
  - destruct (outcome env _ "openai" _ _); cbn [snd posted];
      by rewrite Hsent.
  - done.
  - done.
  - cbn [json_body build_request]. unfold build_body.
    rewrite decide_False by done. cbn [messages]. by rewrite <- app_assoc.
Qed.

(** X19. A flow whose provider has no credential answers with the apology
    and sends nothing: in state ["doctor"] without the credential of
    ["anthropic"], the reply is the apology, the trace of requests is
    unchanged, and the user entry stays in the history. *)
Theorem doctor_without_credential env data w :
  chat_state_of data = "doctor" →
  message_of data ≠ "" →
  ANTHROPIC_API_KEY env = None ∨ ANTHROPIC_API_KEY env = Some "" →
  chat env data w
  = (apology_reply,
     with_session (user_id_of data)
       {| history := history (found (user_id_of data) w)
                     ++ [user_message (message_of data)];
          chat_state := "doctor";
          symptoms := symptoms_of data |} w).
Proof.
  intros Hc Hm Hk.
  assert (call_ai_api env "anthropic" (doctor_prompt (message_of data))
            (history (found (user_id_of data) w)
             ++ [user_message (message_of data)])
            {| chat_sessions := ∅; posted := posted w |}
          = (inl (ValueError (not_configured "anthropic")),
             {| chat_sessions := ∅; posted := posted w |})) as Hcall.
  { apply call_unconfigured. right. eexists. split;
      [apply API_CONFIG_anthropic | done]. }
  assert (call_ai_api env "anthropic" (doctor_prompt (message_of data))
            (history (found (user_id_of data) w)
             ++ [user_message (message_of data)]) no_world
          = (inl (ValueError (not_configured "anthropic")), no_world))
    as Hcall0.
  { apply call_unconfigured. right. eexists. split;
      [apply API_CONFIG_anthropic | done]. }
  rewrite (chat_doctor_run env data w Hc Hm). cbv zeta.
  unfold outcome, sent. rewrite Hcall, Hcall0. cbn [fst snd posted].
  unfold with_session, no_world. by rewrite app_nil_r.
Qed.

(** ** Sequences of requests *)

Lemma entries_of_app speaker (h1 h2 : list Message) :
  entries_of speaker (h1 ++ h2)
  = entries_of speaker h1 ++ entries_of speaker h2.
Proof. unfold entries_of. apply filter_app. Qed.

Lemma entries_of_said m : entries_of "user" (said m) = said m.
Proof. unfold said. by destruct (truthy m). Qed.

Lemma entries_of_said_assistant m : entries_of "assistant" (said m) = [].
Proof. unfold said. by destruct (truthy m). Qed.

Lemma said_empty : said "" = [].
Proof. done. Qed.

(** What one request does to the store, for its own user and for the
    others, processed or not. *)
Lemma chat_step env data w :
  let r := chat env data w in
  (∀ u, u ≠ user_id_of data →
        chat_sessions (snd r) !! u = chat_sessions w !! u)
  ∧ (is_Some (chat_sessions w !! user_id_of data) →
     is_Some (chat_sessions (snd r) !! user_id_of data))
  ∧ (∃ tail,
       history (found (user_id_of data) (snd r))
       = history (found (user_id_of data) w)
         ++ said (message_of data) ++ tail
       ∧ tail = (if decide (answered (fst r))
                 then [assistant_message (response (fst r))] else []))
  ∧ (∃ rs, posted (snd r) = posted w ++ rs ∧ (length rs ≤ 1)%nat).
Proof.
  cbv zeta. destruct (processed_dec data) as [Hp|[Hm Hc]].
  - destruct (chat_processed_shape env data w Hp)
      as (tail & st & sy & rs & Hw & Hlen & _ & Hcase).
    rewrite Hw. cbn [chat_sessions posted].
    split; [intros u Hu; by rewrite lookup_insert_ne|].
    split; [intros _; by rewrite lookup_insert_eq|].
    split; [|by exists rs].
    exists tail. unfold found at 1. cbn [chat_sessions].
    rewrite lookup_insert_eq. cbn [default history]. split; [done|].
    destruct Hcase as [(-> & Ha & _) | (-> & _ & _ & Hna & Hk)].
    + rewrite decide_False; [done|]. intros [_ Hn]. by apply Hn.
    + by rewrite decide_True.
  - rewrite chat_short_circuit_run by done. cbn [fst snd].
    split; [done|]. split; [done|]. split.
    + exists []. rewrite Hm, said_empty, !app_nil_r. split; [done|].
      rewrite decide_False; [done|]. by intros [Hk _].
    + exists []. rewrite app_nil_r. split; [done|]. simpl. lia.
Qed.

Lemma serve_cons env data rest w :
  serve env (data :: rest) w
  = (fst (chat env data w) :: fst (serve env rest (snd (chat env data w))),
     snd (serve env rest (snd (chat env data w)))).
Proof.
  cbn [serve]. destruct (chat env data w) as [p w1]. cbn [fst snd].
  by destruct (serve env rest w1) as [ps w2].
Qed.

Lemma found_other env data w u :
  u ≠ user_id_of data → found u (snd (chat env data w)) = found u w.
Proof.
  intros Hu. unfold found.
  by rewrite (proj1 (chat_step env data w) u Hu).
Qed.

(** X20. Whatever requests are served, from whichever users, the history of
    every session only grows at its end: the history before is a prefix of
    the history after. *)
Theorem history_is_append_only env requests w u :
  history (found u w) `prefix_of` history (found u (snd (serve env requests w))).
Proof.
  revert w. induction requests as [|data rest IH]; intros w; [done|].
  rewrite serve_cons. cbn [snd]. etrans; [|apply IH].
  destruct (decide (u = user_id_of data)) as [->|Hu].
  - destruct (chat_step env data w) as (_ & _ & (tail & -> & _) & _).
    by apply prefix_app_r.
  - by rewrite found_other.
Qed.

(** X21. No request removes a session: a user that has a session before a
    sequence of requests, from whichever users, has one after it. *)
Theorem sessions_are_never_removed env requests w u :
  is_Some (chat_sessions w !! u) →
  is_Some (chat_sessions (snd (serve env requests w)) !! u).
Proof.
  revert w. induction requests as [|data rest IH]; intros w Hu; [done|].
  rewrite serve_cons. cbn [snd]. apply IH.
  destruct (decide (u = user_id_of data)) as [->|Hne].
  - by apply (chat_step env data w).
  - by rewrite (proj1 (chat_step env data w) u Hne).
Qed.

(** X25. A processed request leaves a session for its user, creating it when
    there was none. *)
Theorem session_exists_after_processing env data w :
  processed data →
  is_Some (chat_sessions (snd (chat env data w)) !! user_id_of data).
Proof.
  intros Hp.
  destruct (chat_processed_shape env data w Hp)
    as (tail & st & sy & rs & -> & _).
  cbn [chat_sessions]. by rewrite lookup_insert_eq.
Qed.

(** X22. Serving a sequence of requests hands to the transport at most as
    many requests as were served, after those already sent. *)
Theorem provider_calls_bounded env requests w :
  ∃ rs,
    posted (snd (serve env requests w)) = posted w ++ rs
    ∧ (length rs ≤ length requests)%nat.
Proof.
  revert w. induction requests as [|data rest IH]; intros w.
  - exists []. simpl. by rewrite app_nil_r.
  - rewrite serve_cons. cbn [snd].
    destruct (chat_step env data w) as (_ & _ & _ & (rs1 & Hrs1 & Hlen1)).
    destruct (IH (snd (chat env data w))) as (rs2 & -> & Hlen2).
    exists (rs1 ++ rs2). rewrite Hrs1, <- app_assoc. split; [done|].
    rewrite length_app. simpl. lia.
Qed.

(** X23. The user entries of a session are the messages of its user: after
    any sequence of requests, from whichever users, the user entries in the
    history of a user are those it had before followed by the non-empty
    stripped messages of that user's requests, in order, whatever the state
    of each request and whatever became of it. *)
Theorem user_entries_are_the_messages env requests w u :
  entries_of "user" (history (found u (snd (serve env requests w))))
  = entries_of "user" (history (found u w))
    ++ (user_message <$> messages_from u requests).
Proof.
  revert w. induction requests as [|data rest IH]; intros w.
  - simpl. by rewrite app_nil_r.
  - rewrite serve_cons. cbn [snd]. rewrite IH. unfold messages_from.
    rewrite filter_cons.
    destruct (decide (user_id_of data = u)) as [<-|Hu].
    + destruct (chat_step env data w) as (_ & _ & (tail & -> & ->) & _).
      rewrite !entries_of_app, entries_of_said, <- !app_assoc. f_equal.
      rewrite fmap_cons, filter_cons. unfold said.
      destruct (decide (message_of data ≠ "")) as [Hm|Hm].
      * apply truthy_true_iff in Hm. rewrite Hm.
        destruct (decide (answered _)); by simpl.
      * apply dec_stable in Hm. rewrite Hm.
        destruct (decide (answered _)); by simpl.
    + by rewrite found_other.
Qed.

Lemma entries_of_assistant_tail (p : Payload) :
  entries_of "assistant"
    (if decide (answered p) then [assistant_message (response p)] else [])
  = (if decide (answered p) then [assistant_message (response p)] else []).
Proof. by destruct (decide (answered p)). Qed.

(** X24. The assistant entries of a session are the responses given to its
    user: after a sequence of requests of one user, the assistant entries in
    its history are those it had before followed by the responses of the
    replies, in order, leaving out the validation replies and the
    apologies. *)
Theorem assistant_entries_are_the_responses env requests w u :
  Forall (λ d, user_id_of d = u) requests →
  entries_of "assistant" (history (found u (snd (serve env requests w))))
  = entries_of "assistant" (history (found u w))
    ++ ((λ p, assistant_message (response p))
          <$> filter answered (fst (serve env requests w))).
Proof.
  intros Hall. revert w.
  induction Hall as [|data rest Hu Hrest IH]; intros w.
  - simpl. by rewrite app_nil_r.
  - rewrite serve_cons. cbn [fst snd]. rewrite IH. subst u.
    destruct (chat_step env data w) as (_ & _ & (tail & -> & ->) & _).
    rewrite !entries_of_app, entries_of_said_assistant,
      entries_of_assistant_tail, <- !app_assoc. f_equal.
    rewrite filter_cons.
    destruct (decide (answered _)); by simpl.
Qed.

(** ** The further statements on concrete runs *)

Import Sample.

(** X1 on a run: ["u1"] talks to the doctor flow; in one store ["u2"] has a
    session, in the other nobody has. *)
Lemma other_sessions_untouched_witness :
  let data := request "hi" "doctor" [] in
  let w := with_session "u2"
             {| history := [user_message "hello"];
                chat_state := "symptom"; symptoms := ["cough"] |} no_world in
  "u2" ≠ user_id_of data
  ∧ chat_sessions no_world !! "u1" = chat_sessions w !! "u1"
  ∧ chat_sessions (snd (chat answering data w)) !! "u2"
    = chat_sessions w !! "u2"
  ∧ fst (chat answering data no_world) = fst (chat answering data w)
  ∧ chat_sessions (snd (chat answering data no_world)) !! "u1"
    = chat_sessions (snd (chat answering data w)) !! "u1"
  ∧ posted (snd (chat answering data no_world))
    = posted (snd (chat answering data w)).
Proof.
  cbv zeta. split; [vm_compute; discriminate|]. split; [reflexivity|].
  exact (other_sessions_untouched answering (request "hi" "doctor" [])
           (with_session "u2"
              {| history := [user_message "hello"];
                 chat_state := "symptom"; symptoms := ["cough"] |} no_world)
           no_world "u2" ltac:(vm_compute; discriminate) eq_refl eq_refl).
Defined.

(** X2 on a run: the doctor flow with a provider that answers. *)
Lemma history_grows_by_turn_witness :
  let data := request "hi" "doctor" [] in
  let r := chat answering data no_world in
  let h := history (found "u1" no_world) ++ said "hi" in
  processed data
  ∧ ((history (stored "u1" r) = h ∧ fst r = apology_reply)
     ∨ history (stored "u1" r)
       = h ++ [assistant_message (response (fst r))]).
Proof.
  cbv zeta.
  assert (processed (request "hi" "doctor" [])) as Hp
    by (left; vm_compute; discriminate).
  split; [exact Hp|].
  exact (history_grows_by_turn answering (request "hi" "doctor" []) no_world
           Hp).
Defined.

(** X4 on a run: the symptom flow below the threshold. *)
Lemma reply_reads_store_or_apologises_witness :
  let data := request "fever" "symptom" [] in
  let r := chat answering data no_world in
  processed data
  ∧ ((out_chat_state (fst r) = chat_state (stored "u1" r)
      ∧ out_symptoms (fst r) = symptoms (stored "u1" r))
     ∨ fst r = apology_reply).
Proof.
  cbv zeta.
  assert (processed (request "fever" "symptom" [])) as Hp
    by (left; vm_compute; discriminate).
  split; [exact Hp|].
  exact (reply_reads_store_or_apologises answering
           (request "fever" "symptom" []) no_world Hp).
Defined.

(** X6 on a run: two stores that differ in the state and symptoms kept for
    ["u1"]. *)
Lemma stored_state_is_overwritten_witness :
  let data := request "hi" "doctor" [] in
  let s := {| history := [user_message "hello"];
              chat_state := "symptom"; symptoms := ["cough"] |} in
  let s' := {| history := [user_message "hello"];
               chat_state := "initial"; symptoms := [] |} in
  history s = history s'
  ∧ fst (chat answering data (with_session "u1" s no_world))
    = fst (chat answering data (with_session "u1" s' no_world))
  ∧ (processed data →
     chat answering data (with_session "u1" s no_world)
     = chat answering data (with_session "u1" s' no_world)).
Proof.
  cbv zeta. split; [reflexivity|].
  exact (stored_state_is_overwritten answering (request "hi" "doctor" [])
           no_world
           {| history := [user_message "hello"];
              chat_state := "symptom"; symptoms := ["cough"] |}
           {| history := [user_message "hello"];
              chat_state := "initial"; symptoms := [] |} eq_refl).
Defined.

(** X7 on a run: the provider answers ["Rest."]. *)
Lemma doctor_reply_on_answer_witness :
  let data := request "hi" "doctor" ["fever"] in
  let text := "Rest.<br>" +:+ button "initial" "Back to Menu" in
  outcome answering [] "anthropic" (doctor_prompt "hi") [user_message "hi"]
  = inr (JStr "Rest.")
  ∧ fst (chat answering data no_world)
    = {| response := text;
         out_chat_state := "initial";
         out_symptoms := ["fever"];
         model_used := Label "Claude 3.5 Sonnet" |}
  ∧ chat_sessions (snd (chat answering data no_world)) !! "u1"
    = Some {| history := [user_message "hi"; assistant_message text];
              chat_state := "initial";
              symptoms := ["fever"] |}.
Proof.
  cbv zeta.
  assert (outcome answering [] "anthropic" (doctor_prompt "hi")
            [user_message "hi"] = inr (JStr "Rest.")) as Hj
    by (vm_compute; reflexivity).
  split; [exact Hj|].
  exact (doctor_reply_on_answer answering (request "hi" "doctor" ["fever"])
           no_world (JStr "Rest.") eq_refl ltac:(vm_compute; discriminate)
           Hj).
Defined.

(** X8 on a run: the provider answers ["Rest."]. *)
Lemma patient_reply_on_answer_witness :
  let data := request "hi" "patient" ["fever"] in
  let text := "Rest.<br>" +:+ button "initial" "Back to Menu" in
  outcome answering [] "openai" (patient_prompt "hi") [user_message "hi"]
  = inr (JStr "Rest.")
  ∧ fst (chat answering data no_world)
    = {| response := text;
         out_chat_state := "initial";
         out_symptoms := ["fever"];
         model_used := Label "ChatGPT (GPT-4o)" |}
  ∧ chat_sessions (snd (chat answering data no_world)) !! "u1"
    = Some {| history := [user_message "hi"; assistant_message text];
              chat_state := "initial";
              symptoms := ["fever"] |}.
Proof.
  cbv zeta.
  assert (outcome answering [] "openai" (patient_prompt "hi")
            [user_message "hi"] = inr (JStr "Rest.")) as Hj
    by (vm_compute; reflexivity).
  split; [exact Hj|].
  exact (patient_reply_on_answer answering (request "hi" "patient" ["fever"])
           no_world (JStr "Rest.") eq_refl ltac:(vm_compute; discriminate)
           Hj).
Defined.

(** X9 on a run: the provider answers 500. *)
Lemma patient_failure_reply_witness :
  let data := request "hi" "patient" ["fever"] in
  outcome failing [] "openai" (patient_prompt "hi") [user_message "hi"]
  = inl (HTTPError 500)
  ∧ fst (chat failing data no_world) = apology_reply
  ∧ chat_sessions (snd (chat failing data no_world)) !! "u1"
    = Some {| history := [user_message "hi"];
              chat_state := "patient";
              symptoms := ["fever"] |}.
Proof.
  cbv zeta.
  assert (outcome failing [] "openai" (patient_prompt "hi")
            [user_message "hi"] = inl (HTTPError 500)) as He
    by (vm_compute; reflexivity).
  split; [exact He|].
  exact (patient_failure_reply failing (request "hi" "patient" ["fever"])
           no_world (HTTPError 500) eq_refl ltac:(vm_compute; discriminate)
           He).
Defined.

(** X10 on a run: the third symptom, the provider answers ["Rest."]. *)
Lemma triage_reply_on_answer_witness :
  let data := request "Headache" "symptom" ["fever"; "cough"] in
  let text := "Rest.<br>" +:+ button "doctor" "Connect with a Doctor" in
  outcome answering [] "groq"
    (symptom_prompt ["fever"; "cough"; "headache"]) [user_message "Headache"]
  = inr (JStr "Rest.")
  ∧ fst (chat answering data no_world)
    = {| response := text;
         out_chat_state := "initial";
         out_symptoms := [];
         model_used := Label "Llama 3.1 (Groq)" |}
  ∧ chat_sessions (snd (chat answering data no_world)) !! "u1"
    = Some {| history := [user_message "Headache"; assistant_message text];
              chat_state := "initial";
              symptoms := [] |}.
Proof.
  cbv zeta.
  assert (outcome answering [] "groq"
            (symptom_prompt ["fever"; "cough"; "headache"])
            [user_message "Headache"] = inr (JStr "Rest.")) as Hj
    by (vm_compute; reflexivity).
  assert (3 ≤ length (symptoms_of
                        (request "Headache" "symptom" ["fever"; "cough"])
                      ++ [lower (message_of
                        (request "Headache" "symptom" ["fever"; "cough"]))]))%nat
    as Hlen by (vm_compute; lia).
  split; [exact Hj|].
  exact (triage_reply_on_answer answering
           (request "Headache" "symptom" ["fever"; "cough"]) no_world
           (JStr "Rest.") eq_refl ltac:(vm_compute; discriminate)
           (or_introl Hlen) Hj).
Defined.

(** X11 on a run: the body of [answering], read as ["anthropic"] does. *)
Lemma anthropic_reply_text_witness :
  let config := {| url := "https://api.anthropic.com/v1/messages";
                   key := Some "sk-anthropic";
                   model := "claude-3-5-sonnet-20241022" |} in
  API_CONFIG answering !! "anthropic" = Some config
  ∧ call_ai_api answering "anthropic" "Hello" [] no_world
    = (inr (JStr "Rest."),
       {| chat_sessions := ∅;
          posted := [build_request "anthropic" config "sk-anthropic"
                       "Hello" []] |}).
Proof.
  cbv zeta.
  assert (200 < 400)%nat as H200 by lia.
  assert (API_CONFIG answering !! "anthropic"
          = Some {| url := "https://api.anthropic.com/v1/messages";
                    key := Some "sk-anthropic";
                    model := "claude-3-5-sonnet-20241022" |}) as Hc
    by (vm_compute; reflexivity).
  split; [exact Hc|].
  exact (anthropic_reply_text answering _ "sk-anthropic" "Hello" [] no_world
           {| status_code := 200;
              json := Some (JObj
                [("content", JArr [JObj [("text", JStr "Rest.")]]);
                 ("choices",
                  JArr [JObj [("message",
                               JObj [("content", JStr "Rest.")])]])]) |}
           _ [("text", JStr "Rest.")] [] (JStr "Rest.")
           Hc eq_refl ltac:(discriminate) eq_refl
           (or_introl H200) eq_refl eq_refl eq_refl).
Defined.

(** X12 on a run: the body of [answering], read as ["groq"] does. *)
Lemma choices_reply_text_witness :
  let config := {| url := "https://api.groq.com/openai/v1/chat/completions";
                   key := Some "sk-groq";
                   model := "llama3-70b-8192" |} in
  "groq" ≠ "anthropic"
  ∧ API_CONFIG answering !! "groq" = Some config
  ∧ call_ai_api answering "groq" "Hello" [] no_world
    = (inr (JStr "Rest."),
       {| chat_sessions := ∅;
          posted := [build_request "groq" config "sk-groq" "Hello" []] |}).
Proof.
  cbv zeta.
  assert (200 < 400)%nat as H200 by lia.
  assert (API_CONFIG answering !! "groq"
          = Some {| url := "https://api.groq.com/openai/v1/chat/completions";
                    key := Some "sk-groq";
                    model := "llama3-70b-8192" |}) as Hc
    by (vm_compute; reflexivity).
  split; [discriminate|]. split; [exact Hc|].
  exact (choices_reply_text answering "groq" _ "sk-groq" "Hello" [] no_world
           {| status_code := 200;
              json := Some (JObj
                [("content", JArr [JObj [("text", JStr "Rest.")]]);
                 ("choices",
                  JArr [JObj [("message",
                               JObj [("content", JStr "Rest.")])]])]) |}
           _ [("message", JObj [("content", JStr "Rest.")])] []
           [("content", JStr "Rest.")] (JStr "Rest.")
           ltac:(discriminate) Hc eq_refl ltac:(discriminate) eq_refl
           (or_introl H200) eq_refl eq_refl eq_refl
           eq_refl).
Defined.

(** X13 on a run: ["groq"] answers 500. *)
Lemma error_status_raises_witness :
  let config := {| url := "https://api.groq.com/openai/v1/chat/completions";
                   key := Some "sk-groq";
                   model := "llama3-70b-8192" |} in
  API_CONFIG failing !! "groq" = Some config
  ∧ call_ai_api failing "groq" "Hello" [] no_world
    = (inl (HTTPError 500),
       {| chat_sessions := ∅;
          posted := [build_request "groq" config "sk-groq" "Hello" []] |}).
Proof.
  cbv zeta.
  assert (400 ≤ 500 < 600)%nat as H500 by lia.
  assert (API_CONFIG failing !! "groq"
          = Some {| url := "https://api.groq.com/openai/v1/chat/completions";
                    key := Some "sk-groq";
                    model := "llama3-70b-8192" |}) as Hc
    by (vm_compute; reflexivity).
  split; [exact Hc|].
  exact (error_status_raises failing "groq" _ "sk-groq" "Hello" [] no_world
           {| status_code := 500; json := None |}
           Hc eq_refl ltac:(discriminate) eq_refl H500).
Defined.

(** X14 on a run: ["openai"] answers 200 with a body that is not JSON. *)
Lemma malformed_reply_raises_witness :
  let config := {| url := "https://api.openai.com/v1/chat/completions";
                   key := Some "sk-openai";
                   model := "gpt-4o" |} in
  API_CONFIG garbled !! "openai" = Some config
  ∧ ∃ e, fst (call_ai_api garbled "openai" "Hello" [] no_world) = inl e
         ∧ e ∈ [JSONDecodeError; KeyError; IndexError].
Proof.
  cbv zeta.
  assert (200 < 400)%nat as H200 by lia.
  assert (API_CONFIG garbled !! "openai"
          = Some {| url := "https://api.openai.com/v1/chat/completions";
                    key := Some "sk-openai";
                    model := "gpt-4o" |}) as Hc
    by (vm_compute; reflexivity).
  split; [exact Hc|].
  exact (malformed_reply_raises garbled "openai" _ "sk-openai" "Hello" []
           no_world {| status_code := 200; json := None |}
           Hc eq_refl ltac:(discriminate) eq_refl
           (or_introl H200) (or_introl eq_refl)).
Defined.

(** X15 on a run: the connection to ["openai"] is refused. *)
Lemma transport_error_propagates_witness :
  let config := {| url := "https://api.openai.com/v1/chat/completions";
                   key := Some "sk-openai";
                   model := "gpt-4o" |} in
  API_CONFIG refusing !! "openai" = Some config
  ∧ call_ai_api refusing "openai" "Hello" [] no_world
    = (inl ConnectionError,
       {| chat_sessions := ∅;
          posted := [build_request "openai" config "sk-openai" "Hello" []] |}).
Proof.
  cbv zeta.
  assert (API_CONFIG refusing !! "openai"
          = Some {| url := "https://api.openai.com/v1/chat/completions";
                    key := Some "sk-openai";
                    model := "gpt-4o" |}) as Hc
    by (vm_compute; reflexivity).
  split; [exact Hc|].
  exact (transport_error_propagates refusing "openai" _ "sk-openai" "Hello"
           [] no_world ConnectionError Hc eq_refl ltac:(discriminate)
           eq_refl).
Defined.

(** X16 on a run: the request to ["groq"]. *)
Lemma request_target_witness :
  let config := {| url := "https://api.groq.com/openai/v1/chat/completions";
                   key := Some "sk-groq";
                   model := "llama3-70b-8192" |} in
  API_CONFIG answering !! "groq" = Some config
  ∧ ∃ r,
      posted (snd (call_ai_api answering "groq" "Hello" [] no_world))
      = posted no_world ++ [r]
      ∧ post_url r = "https://api.groq.com/openai/v1/chat/completions"
      ∧ body_model (json_body r) = "llama3-70b-8192"
      ∧ headers r !! "Content-Type" = Some "application/json"
      ∧ size (headers r) = 2%nat.
Proof.
  cbv zeta.
  assert (API_CONFIG answering !! "groq"
          = Some {| url := "https://api.groq.com/openai/v1/chat/completions";
                    key := Some "sk-groq";
                    model := "llama3-70b-8192" |}) as Hc
    by (vm_compute; reflexivity).
  split; [exact Hc|].
  exact (request_target answering "groq" _ "sk-groq" "Hello" [] no_world
           Hc eq_refl ltac:(discriminate)).
Defined.

(** X17 on a run: the doctor flow, whatever the provider answers. *)
Lemma doctor_request_witness :
  let data := request "hi" "doctor" [] in
  ANTHROPIC_API_KEY failing = Some "sk-anthropic"
  ∧ ∃ r,
      posted (snd (chat failing data no_world)) = posted no_world ++ [r]
      ∧ post_url r = "https://api.anthropic.com/v1/messages"
      ∧ body_model (json_body r) = "claude-3-5-sonnet-20241022"
      ∧ messages (json_body r)
        = history (found "u1" no_world)
          ++ [user_message "hi"; user_message (doctor_prompt "hi")].
Proof.
  cbv zeta. split; [reflexivity|].
  exact (doctor_request failing (request "hi" "doctor" []) no_world
           "sk-anthropic" eq_refl ltac:(vm_compute; discriminate) eq_refl
           ltac:(discriminate)).
Defined.

(** X18 on a run: the patient flow, whatever the provider answers. *)
Lemma patient_request_witness :
  let data := request "hi" "patient" [] in
  OPENAI_API_KEY failing = Some "sk-openai"
  ∧ ∃ r,
      posted (snd (chat failing data no_world)) = posted no_world ++ [r]
      ∧ post_url r = "https://api.openai.com/v1/chat/completions"
      ∧ body_model (json_body r) = "gpt-4o"
      ∧ messages (json_body r)
        = history (found "u1" no_world)
          ++ [user_message "hi"; user_message (patient_prompt "hi")].
Proof.
  cbv zeta. split; [reflexivity|].
  exact (patient_request failing (request "hi" "patient" []) no_world
           "sk-openai" eq_refl ltac:(vm_compute; discriminate) eq_refl
           ltac:(discriminate)).
Defined.

(** X19 on a run: no credential for ["anthropic"]. *)
Lemma doctor_without_credential_witness :
  let data := request "hi" "doctor" ["fever"] in
  ANTHROPIC_API_KEY unconfigured = None
  ∧ chat unconfigured data no_world
    = (apology_reply,
       with_session "u1"
         {| history := [user_message "hi"];
            chat_state := "doctor";
            symptoms := ["fever"] |} no_world).
Proof.
  cbv zeta. split; [reflexivity|].
  exact (doctor_without_credential unconfigured
           (request "hi" "doctor" ["fever"]) no_world eq_refl
           ltac:(vm_compute; discriminate) (or_introl eq_refl)).
Defined.

(** X21 on a run: ["u2"] has a session while ["u1"] sends three requests. *)
Lemma sessions_are_never_removed_witness :
  let w := with_session "u2" new_session no_world in
  let requests := [request "hi" "initial" []; request "" "doctor" [];
                   request "hi" "doctor" []] in
  is_Some (chat_sessions w !! "u2")
  ∧ is_Some (chat_sessions (snd (serve failing requests w)) !! "u2").
Proof.
  cbv zeta.
  assert (is_Some (chat_sessions (with_session "u2" new_session no_world)
                   !! "u2")) as Hs
    by (exists new_session; vm_compute; reflexivity).
  split; [exact Hs|].
  exact (sessions_are_never_removed failing
           [request "hi" "initial" []; request "" "doctor" [];
            request "hi" "doctor" []] _ "u2" Hs).
Defined.

(** X24 on a run: a menu, a validation reply, a failed doctor turn and a
    prompt for more, all of ["u1"]. *)
Lemma assistant_entries_are_the_responses_witness :
  let requests := [request "hi" "initial" []; request "" "doctor" [];
                   request "hi" "doctor" []; request "fever" "symptom" []] in
  Forall (λ d, user_id_of d = "u1") requests
  ∧ entries_of "assistant"
      (history (found "u1" (snd (serve failing requests no_world))))
    = entries_of "assistant" (history (found "u1" no_world))
      ++ ((λ p, assistant_message (response p))
            <$> filter answered (fst (serve failing requests no_world))).
Proof.
  cbv zeta.
  assert (Forall (λ d, user_id_of d = "u1")
            [request "hi" "initial" []; request "" "doctor" [];
             request "hi" "doctor" []; request "fever" "symptom" []]) as Hall
    by (repeat constructor).
  split; [exact Hall|].
  exact (assistant_entries_are_the_responses failing _ no_world "u1" Hall).
Defined.

(** X25 on a run: the first request of ["u1"]. *)
Lemma session_exists_after_processing_witness :
  let data := request "hi" "initial" [] in
  processed data
  ∧ chat_sessions no_world !! "u1" = None
  ∧ is_Some (chat_sessions (snd (chat failing data no_world)) !! "u1").
Proof.
  cbv zeta.
  assert (processed (request "hi" "initial" [])) as Hp
    by (right; reflexivity).
  split; [exact Hp|]. split; [reflexivity|].
  exact (session_exists_after_processing failing (request "hi" "initial" [])
           no_world Hp).
Defined.

(** The sequence of the last run, evaluated: two assistant entries, the menu
    and the prompt for more; the validation reply and the apology left
    none. *)
Example served_history_sample :
  let requests := [request "hi" "initial" []; request "" "doctor" [];
                   request "hi" "doctor" []; request "fever" "symptom" []] in
  history (found "u1" (snd (serve failing requests no_world)))
  = [user_message "hi"; assistant_message menu;
     user_message "hi";
     user_message "fever"; assistant_message another_symptom]
  ∧ messages_from "u1" requests = ["hi"; "hi"; "fever"]
  ∧ length (posted (snd (serve failing requests no_world))) = 1%nat.
Proof. vm_compute. repeat split. Qed.
